(** * AgentMail distributed coordinator: a shallow embedding

    The development embeds [agent_coordinator.py] (the Paxos engine, the
    assignment dispatcher, the conversation store and the failure detector),
    the quorum constant of [config.py] and the two entry points of
    [webhook_server.py] that touch the coordinator, and states the properties
    of the specification over these definitions.

    Conventions of the embedding:
    - Python [int] is [Z]; Python [float] is a binary64 primitive [float]
      (loads, wall-clock readings); [str] is [string].
    - A Python [dict] whose iteration order is observed by the code is an
      association list in insertion order ([od_get], [od_set]).
    - A [set] of node ids is a [gset string].
    - A method that mutates [self] and may raise is a function from the
      object to the mutated object and a [result]; the object returned with
      [Raise] carries the mutations done before the exception.
    - Every [time.time()] reading is an argument of the function. *)

From Stdlib Require Import ZArith Floats Ascii String.
From stdpp Require Import gmap strings list.

Local Open Scope string_scope.
Local Open Scope Z_scope.

(** ** Python prelude *)

Inductive exn := AttributeError | TypeError | ZeroDivisionError | KeyError.

Inductive result (A : Type) := Ok (a : A) | Raise (e : exn).
Arguments Ok {A} a.
Arguments Raise {A} e.

(** [d.get(k)] on an insertion-ordered dict. *)
Fixpoint od_get {V : Type} (d : list (string * V)) (k : string) : option V :=
  match d with
  | [] => None
  | (k', v) :: d' => if decide (k' = k) then Some v else od_get d' k
  end.

(** [d[k] = v]: an existing key keeps its position, a new key goes last. *)
Fixpoint od_set {V : Type} (d : list (string * V)) (k : string) (v : V)
  : list (string * V) :=
  match d with
  | [] => [(k, v)]
  | (k', v') :: d' =>
      if decide (k' = k) then (k, v) :: d' else (k', v') :: od_set d' k v
  end.

(** [xs[:k]] for any integer [k]: a negative [k] counts from the end. *)
Definition py_slice_to {A : Type} (xs : list A) (k : Z) : list A :=
  if 0 <=? k then take (Z.to_nat k) xs
  else take (Z.to_nat (Z.of_nat (length xs) + k)) xs.

(** [str.lower()] on the ASCII range. *)
Definition lower_ascii (c : ascii) : ascii :=
  let n := nat_of_ascii c in
  if ((65 <=? n) && (n <=? 90))%nat then ascii_of_nat (n + 32) else c.

Fixpoint lower (s : string) : string :=
  match s with
  | EmptyString => EmptyString
  | String c s' => String (lower_ascii c) (lower s')
  end.

Fixpoint starts_with (w s : string) : bool :=
  match w, s with
  | EmptyString, _ => true
  | String a w', String b s' => if decide (a = b) then starts_with w' s' else false
  | String _ _, EmptyString => false
  end.

(** [w in s] for strings. *)
Fixpoint contains (w s : string) : bool :=
  starts_with w s ||
  match s with
  | EmptyString => false
  | String _ s' => contains w s'
  end.

(** The binary64 value Python reads for the literals [0.1] and [1.0]. *)
Definition f0_1 : float := Eval cbv in 0x1.999999999999ap-4%float.
Definition f1_0 : float := Eval cbv in 1%float.

(** An [int] operand of a float comparison or subtraction. *)
Definition float_of_Z (z : Z) : float :=
  SF2Prim (binary_normalize prec emax z 0 false).

(** ** config.py *)

Record Config := {
  NODE_ID : string;
  CLUSTER_NODES : list string;
  FLASK_HOST : string;
  FLASK_PORT : Z;
  (** the string [f"{Config.FLASK_HOST}:{Config.FLASK_PORT}"] *)
  FLASK_ADDR : string;
  HEALTH_CHECK_INTERVAL : Z;
  FAILURE_THRESHOLD : Z;
  STATE_REPLICATION_FACTOR : Z
}.

Definition PAXOS_MAJORITY_SIZE (cfg : Config) : Z :=
  Z.of_nat (length (CLUSTER_NODES cfg)) / 2 + 1.

(** ** Data classes *)

Inductive AgentStatus := HEALTHY | SUSPECTED | FAILED | RECOVERING.

Inductive MessageType :=
  PREPARE | PROMISE | ACCEPT | ACCEPTED | HEARTBEAT | STATE_SYNC.

#[global] Instance AgentStatus_eq_dec : EqDecision AgentStatus.
Proof. solve_decision. Defined.

#[global] Instance MessageType_eq_dec : EqDecision MessageType.
Proof. solve_decision. Defined.

(** Values stored in a conversation context. *)
Inductive CtxVal := CStr (s : string) | CFloat (f : float).

Record ConversationState := {
  thread_id : string;
  (** [None] when [_select_best_agent] returned [None] *)
  assigned_agent : option string;
  context : list (string * CtxVal);
  last_updated : float;
  version : Z;
  replicas : gset string
}.

(** The payloads a Paxos message carries ([value: Any]). *)
Inductive Value :=
| VNone
| VStr (s : string)
| VInt (z : Z)
| VState (cs : ConversationState).

(** Python truth value, as tested by [x or y]. *)
Definition truthy (v : Value) : bool :=
  match v with
  | VNone => false
  | VStr s => negb (bool_decide (s = ""))
  | VInt z => negb (z =? 0)
  | VState _ => true
  end.

Definition py_or (x y : Value) : Value := if truthy x then x else y.

Module Message.

(** [PaxosMessage]; [sender] and [timestamp] are never read by the
    coordinator and are left out. *)
Record PaxosMessage := {
  msg_type : MessageType;
  proposal_id : Z;
  value : Value;
  promised_id : option Z;
  accepted_id : option Z;
  accepted_value : Value
}.

(** [PaxosMessage(msg_type, proposal_id)] with the dataclass defaults. *)
Definition make (t : MessageType) (n : Z) : PaxosMessage :=
  {| msg_type := t; proposal_id := n; value := VNone;
     promised_id := None; accepted_id := None; accepted_value := VNone |}.

End Message.

Abbreviation PaxosMessage := Message.PaxosMessage.

(** ** PaxosCoordinator *)

Module Paxos.

Record PaxosCoordinator := {
  node_id : string;
  cluster_nodes : list string;
  proposal_id : Z;
  promised_id : Z;
  accepted_id : Z;
  accepted_value : Value
}.

(** [PaxosCoordinator(node_id, cluster_nodes)] *)
Definition init (n : string) (nodes : list string) : PaxosCoordinator :=
  {| node_id := n; cluster_nodes := nodes; proposal_id := 0;
     promised_id := -1; accepted_id := -1; accepted_value := VNone |}.

Definition set_proposal_id (self : PaxosCoordinator) (n : Z) : PaxosCoordinator :=
  {| node_id := node_id self; cluster_nodes := cluster_nodes self;
     proposal_id := n; promised_id := promised_id self;
     accepted_id := accepted_id self; accepted_value := accepted_value self |}.

Definition set_promised_id (self : PaxosCoordinator) (n : Z) : PaxosCoordinator :=
  {| node_id := node_id self; cluster_nodes := cluster_nodes self;
     proposal_id := proposal_id self; promised_id := n;
     accepted_id := accepted_id self; accepted_value := accepted_value self |}.

Definition set_accepted (self : PaxosCoordinator) (n : Z) (v : Value)
  : PaxosCoordinator :=
  {| node_id := node_id self; cluster_nodes := cluster_nodes self;
     proposal_id := proposal_id self; promised_id := n;
     accepted_id := n; accepted_value := v |}.

Section Engine.

(** [hash] of this process (string hashes are salted per process). *)
Variable py_hash : string -> Z.
Variable cfg : Config.

(** [generate_proposal_id]; [ms] is [int(time.time() * 1000)]. *)
Definition generate_proposal_id (ms : Z) (self : PaxosCoordinator)
  : PaxosCoordinator * result Z :=
  let n := Z.of_nat (length (cluster_nodes self)) in
  if n =? 0 then (self, Raise ZeroDivisionError)
  else
    let id := ms * n + py_hash (node_id self) mod n in
    (set_proposal_id self id, Ok id).

Definition _handle_prepare (self : PaxosCoordinator) (message : PaxosMessage)
  : PaxosCoordinator * PaxosMessage :=
  if Message.proposal_id message >? promised_id self then
    let self' := set_promised_id self (Message.proposal_id message) in
    (self',
     {| Message.msg_type := PROMISE;
        Message.proposal_id := Message.proposal_id message;
        Message.value := VNone;
        Message.promised_id := Some (promised_id self');
        Message.accepted_id := Some (accepted_id self');
        Message.accepted_value := accepted_value self' |})
  else
    (self,
     {| Message.msg_type := PROMISE;
        Message.proposal_id := Message.proposal_id message;
        Message.value := VNone;
        Message.promised_id := Some (-1);
        Message.accepted_id := None;
        Message.accepted_value := VNone |}).

Definition _handle_accept (self : PaxosCoordinator) (message : PaxosMessage)
  : PaxosCoordinator * PaxosMessage :=
  if Message.proposal_id message >=? promised_id self then
    (set_accepted self (Message.proposal_id message) (Message.value message),
     Message.make ACCEPTED (Message.proposal_id message))
  else
    (self,
     {| Message.msg_type := ACCEPTED;
        Message.proposal_id := Message.proposal_id message;
        Message.value := VNone;
        Message.promised_id := None;
        Message.accepted_id := Some (-1);
        Message.accepted_value := VNone |}).

Definition handle_paxos_message (self : PaxosCoordinator) (message : PaxosMessage)
  : PaxosCoordinator * option PaxosMessage :=
  match Message.msg_type message with
  | PREPARE => let '(s, r) := _handle_prepare self message in (s, Some r)
  | ACCEPT => let '(s, r) := _handle_accept self message in (s, Some r)
  | _ => (self, None)
  end.

(** The proposer's view of the cluster: its own coordinator object and the
    coordinators of the peers, keyed by address. *)
Definition World : Type := PaxosCoordinator * gmap string PaxosCoordinator.

(** [_send_message]. A call to the process's own address runs the handler
    in-process. Any other address is an HTTP round trip to the peer's
    [/paxos] route, which runs the peer's [handle_paxos_message]; [up node]
    tells whether the round trip completes (a timeout, a refused connection
    or a non-200 answer yields [None]). The JSON encoding of the request and
    of the answer is not modelled: a completed round trip hands the message
    and the reply over unchanged. *)
Definition _send_message (up : string -> bool) (node : string)
    (message : PaxosMessage) (w : World) : World * option PaxosMessage :=
  let '(self, peers) := w in
  if decide (node = FLASK_ADDR cfg) then
    let '(self', r) := handle_paxos_message self message in ((self', peers), r)
  else if up node then
    match peers !! node with
    | Some p =>
        let '(p', r) := handle_paxos_message p message in
        ((self, <[node := p']> peers), r)
    | None => (w, None)
    end
  else (w, None).

(** The fan-out of [_send_prepare] and [_send_accept]: one [send_to_node]
    per cluster node, in list order, keeping the responses of type [keep]. *)
Fixpoint fan_out (up : string -> bool) (keep : MessageType)
    (message : PaxosMessage) (nodes : list string) (w : World)
  : World * list PaxosMessage :=
  match nodes with
  | [] => (w, [])
  | node :: rest =>
      let '(w1, response) := _send_message up node message w in
      let '(w2, more) := fan_out up keep message rest w1 in
      match response with
      | Some r =>
          if decide (Message.msg_type r = keep) then (w2, r :: more) else (w2, more)
      | None => (w2, more)
      end
  end.

Definition _send_prepare (up : string -> bool) (proposal_id : Z) (w : World)
  : World * list PaxosMessage :=
  fan_out up PROMISE (Message.make PREPARE proposal_id) (cluster_nodes (fst w)) w.

Definition _send_accept (up : string -> bool) (proposal_id : Z) (value : Value)
    (w : World) : World * list PaxosMessage :=
  fan_out up ACCEPTED
    {| Message.msg_type := ACCEPT; Message.proposal_id := proposal_id;
       Message.value := value; Message.promised_id := None;
       Message.accepted_id := None; Message.accepted_value := VNone |}
    (cluster_nodes (fst w)) w.

(** The loop of [propose_value] over the promises; comparing the [None]
    that a negative promise carries in [accepted_id] with an [int] raises. *)
Fixpoint choose_value (value : Value) (promises : list PaxosMessage)
    (chosen_value : Value) (max_accepted_id : Z) : result Value :=
  match promises with
  | [] => Ok chosen_value
  | promise :: rest =>
      match Message.accepted_id promise with
      | None => Raise TypeError
      | Some a =>
          if a >? max_accepted_id
          then choose_value value rest (py_or (Message.accepted_value promise) value) a
          else choose_value value rest chosen_value max_accepted_id
      end
  end.

(** [propose_value] up to the end of its first [await]: the id is issued and
    the prepare round has run. *)
Definition propose_prepare (up : string -> bool) (ms : Z) (w : World)
  : World * result (Z * list PaxosMessage) :=
  let '(self, peers) := w in
  match generate_proposal_id ms self with
  | (self1, Raise e) => ((self1, peers), Raise e)
  | (self1, Ok proposal_id) =>
      let '(w1, promises) := _send_prepare up proposal_id (self1, peers) in
      (w1, Ok (proposal_id, promises))
  end.

(** [propose_value] from the return of the prepare round to its end. *)
Definition propose_resume (up : string -> bool) (proposal_id : Z) (value : Value)
    (promises : list PaxosMessage) (w : World) : World * result (bool * Value) :=
  if Z.of_nat (length promises) <? PAXOS_MAJORITY_SIZE cfg then (w, Ok (false, VNone))
  else
    match choose_value value promises value (-1) with
    | Raise e => (w, Raise e)
    | Ok chosen_value =>
        let '(w1, acceptances) := _send_accept up proposal_id chosen_value w in
        if Z.of_nat (length acceptances) <? PAXOS_MAJORITY_SIZE cfg
        then (w1, Ok (false, VNone))
        else (w1, Ok (true, chosen_value))
    end.

(** [propose_value] run with no other coroutine scheduled in between. *)
Definition propose_value (up : string -> bool) (ms : Z) (value : Value) (w : World)
  : World * result (bool * Value) :=
  match propose_prepare up ms w with
  | (w1, Raise e) => (w1, Raise e)
  | (w1, Ok (proposal_id, promises)) => propose_resume up proposal_id value promises w1
  end.

End Engine.

End Paxos.

Abbreviation PaxosCoordinator := Paxos.PaxosCoordinator.

(** ** DistributedAgentCoordinator *)

Module Agent.

Record AgentInfo := {
  node_id : string;
  host : string;
  port : Z;
  status : AgentStatus;
  specializations : list string;
  load : float;
  last_heartbeat : float;
  failure_count : Z
}.

End Agent.

Abbreviation AgentInfo := Agent.AgentInfo.

(** A value of [self.agents]: the constructor and [_initialize_demo_agents]
    store lists of agent ids under the specialization names, [_register_self]
    and [handle_heartbeat] store [AgentInfo] objects under node ids, all in
    the same dict. *)
Inductive AgentsEntry := AgentIds (ids : list string) | AgentRec (a : AgentInfo).

Module Health.

(** A value of [self.agent_health]: a dict read with [.get], so every key
    may be absent. *)
Record Entry := {
  last_heartbeat : option float;
  status : option string;
  specializations : option (list string);
  load : option float;
  failure_count : option Z
}.

Definition set_status (h : Entry) (s : string) : Entry :=
  {| last_heartbeat := last_heartbeat h; status := Some s;
     specializations := specializations h; load := load h;
     failure_count := failure_count h |}.

Definition set_failure_count (h : Entry) (n : Z) : Entry :=
  {| last_heartbeat := last_heartbeat h; status := status h;
     specializations := specializations h; load := load h;
     failure_count := Some n |}.

Definition set_load (h : Entry) (l : float) : Entry :=
  {| last_heartbeat := last_heartbeat h; status := status h;
     specializations := specializations h; load := Some l;
     failure_count := failure_count h |}.

End Health.

(** The [info] object of a heartbeat request. *)
Record HeartbeatInfo := {
  hb_host : option string;
  hb_port : option Z;
  hb_specializations : option (list string);
  hb_load : option float
}.

Module Coordinator.

Record DistributedAgentCoordinator := {
  node_id : string;
  agents : list (string * AgentsEntry);
  agent_health : list (string * Health.Entry);
  conversations : list (string * ConversationState);
  paxos : PaxosCoordinator;
  running : bool
}.

Definition set_agents (self : DistributedAgentCoordinator)
    (a : list (string * AgentsEntry)) : DistributedAgentCoordinator :=
  {| node_id := node_id self; agents := a; agent_health := agent_health self;
     conversations := conversations self; paxos := paxos self;
     running := running self |}.

Definition set_agent_health (self : DistributedAgentCoordinator)
    (h : list (string * Health.Entry)) : DistributedAgentCoordinator :=
  {| node_id := node_id self; agents := agents self; agent_health := h;
     conversations := conversations self; paxos := paxos self;
     running := running self |}.

Definition set_conversations (self : DistributedAgentCoordinator)
    (c : list (string * ConversationState)) : DistributedAgentCoordinator :=
  {| node_id := node_id self; agents := agents self;
     agent_health := agent_health self; conversations := c;
     paxos := paxos self; running := running self |}.

Definition set_paxos (self : DistributedAgentCoordinator) (p : PaxosCoordinator)
  : DistributedAgentCoordinator :=
  {| node_id := node_id self; agents := agents self;
     agent_health := agent_health self; conversations := conversations self;
     paxos := p; running := running self |}.

Definition set_running (self : DistributedAgentCoordinator) (b : bool)
  : DistributedAgentCoordinator :=
  {| node_id := node_id self; agents := agents self;
     agent_health := agent_health self; conversations := conversations self;
     paxos := paxos self; running := b |}.

Section Methods.

Variable cfg : Config.
(** the reading of [time.time()] taken when the module was loaded, the
    default of [AgentInfo.last_heartbeat] *)
Variable import_time : float.

(** [_register_self] *)
Definition _register_self (self : DistributedAgentCoordinator)
  : DistributedAgentCoordinator :=
  set_agents self
    (od_set (agents self) (node_id self)
       (AgentRec
          {| Agent.node_id := node_id self; Agent.host := FLASK_HOST cfg;
             Agent.port := FLASK_PORT cfg; Agent.status := HEALTHY;
             Agent.specializations := ["info"; "routing"; "fallback"];
             Agent.load := 0%float; Agent.last_heartbeat := import_time;
             Agent.failure_count := 0 |})).

(** [DistributedAgentCoordinator()] *)
Definition init : DistributedAgentCoordinator :=
  _register_self
    {| node_id := NODE_ID cfg;
       agents := [("support", AgentIds []); ("sales", AgentIds []);
                  ("general", AgentIds [])];
       agent_health := [];
       conversations := [];
       paxos := Paxos.init (NODE_ID cfg) (CLUSTER_NODES cfg);
       running := false |}.

(** [_initialize_demo_agents] *)
Definition _initialize_demo_agents (now : float) (self : DistributedAgentCoordinator)
  : DistributedAgentCoordinator :=
  let self1 :=
    set_agents self
      [("support", AgentIds [node_id self]); ("sales", AgentIds [node_id self]);
       ("general", AgentIds [node_id self])] in
  set_agent_health self1
    (od_set (agent_health self1) (node_id self1)
       {| Health.last_heartbeat := Some now; Health.status := Some "healthy";
          Health.specializations := Some ["support"; "sales"; "general"];
          Health.load := Some f0_1; Health.failure_count := None |}).

(** [start], without the two background loops it spawns. *)
Definition start (now : float) (self : DistributedAgentCoordinator)
  : DistributedAgentCoordinator :=
  _initialize_demo_agents now (set_running self true).

(** [_classify_email] *)
Definition _classify_email (content sender : string) : string :=
  let content_lower := lower content in
  if existsb (fun word => contains word content_lower)
       ["billing"; "payment"; "invoice"; "charge"] then "support"
  else if existsb (fun word => contains word content_lower)
       ["price"; "demo"; "sales"; "purchase"] then "sales"
  else "general".

(** [self.agent_health.get(agent_id, {}).get('status') == 'healthy'] *)
Definition is_healthy (self : DistributedAgentCoordinator) (agent_id : string) : bool :=
  match od_get (agent_health self) agent_id with
  | Some h => bool_decide (Health.status h = Some "healthy")
  | None => false
  end.

(** [_get_available_agents]; iterating an [AgentInfo] raises. *)
Definition _get_available_agents (self : DistributedAgentCoordinator)
    (specialization : string) : result (list string) :=
  match od_get (agents self) specialization with
  | None => Ok []
  | Some (AgentIds agent_list) => Ok (List.filter (is_healthy self) agent_list)
  | Some (AgentRec _) => Raise TypeError
  end.

(** the key of [_select_best_agent] *)
Definition load_key (self : DistributedAgentCoordinator) (agent_id : string) : float :=
  match od_get (agent_health self) agent_id with
  | Some h => default f1_0 (Health.load h)
  | None => f1_0
  end.

(** [min(best :: rest, key=key)]: the first element with the least key. *)
Fixpoint py_min_by (key : string -> float) (best : string) (rest : list string)
  : string :=
  match rest with
  | [] => best
  | x :: rest' =>
      if PrimFloat.ltb (key x) (key best) then py_min_by key x rest'
      else py_min_by key best rest'
  end.

(** [_select_best_agent] *)
Definition _select_best_agent (self : DistributedAgentCoordinator)
    (candidates : list string) : option string :=
  match candidates with
  | [] => None
  | first :: rest => Some (py_min_by (load_key self) first rest)
  end.

(** The comprehension of [_select_replica_nodes] over [self.agents.items()];
    reading [.status] of a list raises. *)
Fixpoint healthy_nodes (items : list (string * AgentsEntry)) : result (list string) :=
  match items with
  | [] => Ok []
  | (_, AgentIds _) :: _ => Raise AttributeError
  | (node, AgentRec agent) :: rest =>
      match healthy_nodes rest with
      | Raise e => Raise e
      | Ok l => Ok (if decide (Agent.status agent = HEALTHY) then node :: l else l)
      end
  end.

(** [_select_replica_nodes] *)
Definition _select_replica_nodes (self : DistributedAgentCoordinator) (count : Z)
  : result (list string) :=
  match healthy_nodes (agents self) with
  | Raise e => Raise e
  | Ok healthy =>
      let others :=
        List.filter (fun node => negb (bool_decide (node = node_id self))) healthy in
      Ok (node_id self :: py_slice_to others (count - 1))
  end.

(** [_replicate_state]: the [STATE_SYNC] pushes handed to
    [self.paxos._send_message], one per replica other than this node. *)
Definition _replicate_state (self : DistributedAgentCoordinator)
    (state : ConversationState) (replica_nodes : list string)
  : list (string * PaxosMessage) :=
  let state_msg :=
    {| Message.msg_type := STATE_SYNC; Message.proposal_id := 0;
       Message.value := VState state; Message.promised_id := None;
       Message.accepted_id := None; Message.accepted_value := VNone |} in
  map (fun node => (node, state_msg))
    (List.filter (fun node => negb (bool_decide (node = node_id self))) replica_nodes).

(** [_update_conversation_state]; the result lists the pushes. *)
Definition _update_conversation_state (self : DistributedAgentCoordinator)
    (thread : string) (agent_id : option string)
    (ctx : list (string * CtxVal)) (now : float)
  : DistributedAgentCoordinator * result (list (string * PaxosMessage)) :=
  match _select_replica_nodes self (STATE_REPLICATION_FACTOR cfg) with
  | Raise e => (self, Raise e)
  | Ok replica_nodes =>
      let state :=
        {| thread_id := thread; assigned_agent := agent_id; context := ctx;
           last_updated := now;
           version := match od_get (conversations self) thread with
                      | Some old => version old + 1
                      | None => 1
                      end;
           replicas := list_to_set replica_nodes |} in
      let self' := set_conversations self (od_set (conversations self) thread state) in
      (self', Ok (_replicate_state self' state replica_nodes))
  end.

(** The load update that ends [assign_agent_for_email]. *)
Definition bump_load (self : DistributedAgentCoordinator)
    (assigned : option string) : DistributedAgentCoordinator :=
  match assigned with
  | None => self
  | Some a =>
      match od_get (agent_health self) a with
      | None => self
      | Some h =>
          let current_load := default f0_1 (Health.load h) in
          set_agent_health self
            (od_set (agent_health self) a
               (Health.set_load h (PrimFloat.add current_load f0_1)))
      end
  end.

(** [assign_agent_for_email]. The [assignment_proposal] dict the method
    builds is never read and is left out. *)
Definition assign_agent_for_email (self : DistributedAgentCoordinator)
    (thread email_content sender : string) (now : float)
  : DistributedAgentCoordinator * result (option string) :=
  let specialization := _classify_email email_content sender in
  match _get_available_agents self specialization with
  | Raise e => (self, Raise e)
  | Ok [] => (self, Ok None)
  | Ok candidates =>
      let selected_agent := _select_best_agent self candidates in
      (* Simplified assignment - no consensus needed *)
      let assigned_agent := selected_agent in
      match _update_conversation_state self thread assigned_agent
              [("email_content", CStr email_content); ("sender", CStr sender);
               ("specialization", CStr specialization)] now with
      | (self1, Raise e) => (self1, Raise e)
      | (self1, Ok _) => (bump_load self1 assigned_agent, Ok assigned_agent)
      end
  end.

(** One thread of the reassignment loop of [_handle_agent_failure]. *)
Definition reassign (now : float) (self : DistributedAgentCoordinator)
    (thread : string) : DistributedAgentCoordinator * result unit :=
  match od_get (conversations self) thread with
  | None => (self, Raise KeyError)
  | Some state =>
      let candidates :=
        match od_get (context state) "specialization" with
        | None => _get_available_agents self "general"
        | Some (CStr specialization) => _get_available_agents self specialization
        | Some (CFloat _) => Ok []
        end in
      match candidates with
      | Raise e => (self, Raise e)
      | Ok [] => (self, Ok tt)
      | Ok cs =>
          match _update_conversation_state self thread (_select_best_agent self cs)
                  (context state) now with
          | (self1, Raise e) => (self1, Raise e)
          | (self1, Ok _) => (self1, Ok tt)
          end
      end
  end.

(** A [for] loop whose body may raise. *)
Fixpoint for_each {S A : Type} (body : S -> A -> S * result unit) (xs : list A)
    (s : S) : S * result unit :=
  match xs with
  | [] => (s, Ok tt)
  | x :: rest =>
      match body s x with
      | (s1, Raise e) => (s1, Raise e)
      | (s1, Ok _) => for_each body rest s1
      end
  end.

(** [_handle_agent_failure]; [now] is the clock reading of its upserts. *)
Definition _handle_agent_failure (now : float) (self : DistributedAgentCoordinator)
    (failed_agent_id : string) : DistributedAgentCoordinator * result unit :=
  let conversations_to_reassign :=
    map fst
      (List.filter
         (fun item => bool_decide (assigned_agent (snd item) = Some failed_agent_id))
         (conversations self)) in
  for_each (reassign now) conversations_to_reassign self.

(** The body of the loop of [_check_agent_health] for one key. *)
Definition check_agent (current_time : float) (self : DistributedAgentCoordinator)
    (agent_id : string) : DistributedAgentCoordinator * result unit :=
  if decide (agent_id = node_id self) then (self, Ok tt)
  else
    match od_get (agent_health self) agent_id with
    | None =>
        (* agent_info is a fresh empty dict *)
        if PrimFloat.ltb (float_of_Z (HEALTH_CHECK_INTERVAL cfg * 2))
             (PrimFloat.sub current_time 0%float)
        then (self, Raise KeyError)
        else (self, Ok tt)
    | Some agent_info =>
        let store h := set_agent_health self (od_set (agent_health self) agent_id h) in
        let last_heartbeat := default 0%float (Health.last_heartbeat agent_info) in
        if PrimFloat.ltb (float_of_Z (HEALTH_CHECK_INTERVAL cfg * 2))
             (PrimFloat.sub current_time last_heartbeat)
        then
          let failure_count := default 0 (Health.failure_count agent_info) + 1 in
          let counted := Health.set_failure_count agent_info failure_count in
          if failure_count >=? FAILURE_THRESHOLD cfg then
            if bool_decide (Health.status counted = Some "failed")
            then (store counted, Ok tt)
            else _handle_agent_failure current_time
                   (store (Health.set_status counted "failed")) agent_id
          else (store (Health.set_status counted "suspected"), Ok tt)
        else
          if default 0 (Health.failure_count agent_info) >? 0 then
            (store (Health.set_status (Health.set_failure_count agent_info 0) "healthy"),
             Ok tt)
          else (self, Ok tt)
    end.

(** [_check_agent_health] *)
Definition _check_agent_health (current_time : float)
    (self : DistributedAgentCoordinator) : DistributedAgentCoordinator * result unit :=
  for_each (check_agent current_time) (map fst (agent_health self)) self.

(** [handle_heartbeat]; setting an attribute of a list raises. *)
Definition handle_heartbeat (self : DistributedAgentCoordinator) (agent_id : string)
    (agent_info : HeartbeatInfo) (now : float)
  : DistributedAgentCoordinator * result unit :=
  match od_get (agents self) agent_id with
  | None =>
      (set_agents self
         (od_set (agents self) agent_id
            (AgentRec
               {| Agent.node_id := agent_id;
                  Agent.host := default "unknown" (hb_host agent_info);
                  Agent.port := default 0 (hb_port agent_info);
                  Agent.status := HEALTHY;
                  Agent.specializations :=
                    default ["general"] (hb_specializations agent_info);
                  Agent.load := 0%float; Agent.last_heartbeat := import_time;
                  Agent.failure_count := 0 |})),
       Ok tt)
  | Some (AgentIds _) => (self, Raise AttributeError)
  | Some (AgentRec agent) =>
      (set_agents self
         (od_set (agents self) agent_id
            (AgentRec
               {| Agent.node_id := Agent.node_id agent;
                  Agent.host := Agent.host agent; Agent.port := Agent.port agent;
                  Agent.status :=
                    if decide (Agent.status agent = FAILED) then RECOVERING
                    else Agent.status agent;
                  Agent.specializations := Agent.specializations agent;
                  Agent.load := default 0%float (hb_load agent_info);
                  Agent.last_heartbeat := now;
                  Agent.failure_count := Agent.failure_count agent |})),
       Ok tt)
  end.

(** The [/paxos] route of webhook_server.py, from the call of
    [coordinator.paxos.handle_paxos_message] on: the message goes to that
    handler and nowhere else.  The route builds the message from the JSON body
    and logs [message.msg_type.value] before that call; for a message decoded
    from JSON [msg_type] is a [str], that line raises and the route answers
    500 without reaching the handler.  The definition therefore allows more
    than the route does: it gives the handler every message, which is what the
    route would do for a message whose [msg_type] is a [MessageType]. *)
Definition paxos_route (self : DistributedAgentCoordinator) (message : PaxosMessage)
  : DistributedAgentCoordinator * option PaxosMessage :=
  let '(p, response) := Paxos.handle_paxos_message (paxos self) message in
  (set_paxos self p, response).

(** [_handle_message_sent] of webhook_server.py.  The handler reads the
    clock twice: [sent_at] is the reading stored under ['last_sent'], and
    [updated_at] the later one stored in [last_updated]. *)
Definition _handle_message_sent (self : DistributedAgentCoordinator)
    (thread : string) (sent_at updated_at : float) : DistributedAgentCoordinator :=
  match od_get (conversations self) thread with
  | None => self
  | Some state =>
      set_conversations self
        (od_set (conversations self) thread
           {| thread_id := thread_id state; assigned_agent := assigned_agent state;
              context := od_set (context state) "last_sent" (CFloat sent_at);
              last_updated := updated_at; version := version state + 1;
              replicas := replicas state |})
  end.

End Methods.

End Coordinator.

Abbreviation DistributedAgentCoordinator := Coordinator.DistributedAgentCoordinator.

(** ** Concrete nodes used by the examples *)

Definition demo_cfg : Config :=
  {| NODE_ID := "agent-1"; CLUSTER_NODES := ["localhost:5000"];
     FLASK_HOST := "localhost"; FLASK_PORT := 5000;
     FLASK_ADDR := "localhost:5000"; HEALTH_CHECK_INTERVAL := 10;
     FAILURE_THRESHOLD := 3; STATE_REPLICATION_FACTOR := 3 |}.

(** A one-node cluster whose only member is the process itself. *)
Definition demo_world : Paxos.World :=
  (Paxos.init "agent-1" ["localhost:5000"], ∅).

Definition all_up (_ : string) : bool := true.

(** The coordinator after [DistributedAgentCoordinator()] and [start()]. *)
Definition demo_node : DistributedAgentCoordinator :=
  Coordinator.start 100%float (Coordinator.init demo_cfg 50%float).

(** The same node once its acceptor has accepted another proposer's value. *)
Definition busy_node : DistributedAgentCoordinator :=
  Coordinator.set_paxos demo_node
    (Paxos.set_accepted (Coordinator.paxos demo_node) 1000 (VStr "agent-b")).

Definition agent_record (n : string) (s : AgentStatus) : AgentsEntry :=
  AgentRec
    {| Agent.node_id := n; Agent.host := "10.0.0.1"; Agent.port := 5000;
       Agent.status := s; Agent.specializations := ["general"];
       Agent.load := 0%float; Agent.last_heartbeat := 50%float;
       Agent.failure_count := 0 |}.

(** A node whose agent table holds [AgentInfo] objects only. *)
Definition table_node (peers : list string) : DistributedAgentCoordinator :=
  {| Coordinator.node_id := "agent-1";
     Coordinator.agents :=
       ("agent-1", agent_record "agent-1" HEALTHY)
         :: map (fun n => (n, agent_record n HEALTHY)) peers;
     Coordinator.agent_health := [];
     Coordinator.conversations := [];
     Coordinator.paxos := Paxos.init "agent-1" ["localhost:5000"];
     Coordinator.running := true |}.

Definition pushed_state : ConversationState :=
  {| thread_id := "t1"; assigned_agent := Some "agent-2"; context := [];
     last_updated := 7%float; version := 1;
     replicas := {["agent-1"; "agent-2"]} |}.

Definition state_sync_push : PaxosMessage :=
  {| Message.msg_type := STATE_SYNC; Message.proposal_id := 0;
     Message.value := VState pushed_state; Message.promised_id := None;
     Message.accepted_id := None; Message.accepted_value := VNone |}.

Definition peer_entry (last : float) (st : string) (fc : Z) : Health.Entry :=
  {| Health.last_heartbeat := Some last; Health.status := Some st;
     Health.specializations := Some ["general"]; Health.load := Some f0_1;
     Health.failure_count := Some fc |}.

(** [demo_node] with one peer in its health table. *)
Definition watching_node (h : Health.Entry) : DistributedAgentCoordinator :=
  Coordinator.set_agent_health demo_node
    (od_set (Coordinator.agent_health demo_node) "agent-2" h).

(** Only node D is healthy and it is listed under [sales] alone. *)
Definition sales_only_node : DistributedAgentCoordinator :=
  {| Coordinator.node_id := "agent-1";
     Coordinator.agents :=
       [("support", AgentIds []); ("sales", AgentIds ["agent-d"]);
        ("general", AgentIds [])];
     Coordinator.agent_health := [("agent-d", peer_entry 99%float "healthy" 0)];
     Coordinator.conversations := [];
     Coordinator.paxos := Paxos.init "agent-1" ["localhost:5000"];
     Coordinator.running := true |}.

(** The healthy nodes a table gives, as a set. *)
Definition healthy_peer_set (self : DistributedAgentCoordinator) : gset string :=
  match Coordinator.healthy_nodes (Coordinator.agents self) with
  | Ok l => list_to_set l
  | Raise _ => ∅
  end.

(** ** Runs of a node *)

(** The calls that reach a coordinator. *)
Inductive Call :=
| CallStart (now : float)
| CallAssign (thread email_content sender : string) (now : float)
| CallUpsert (thread : string) (agent_id : option string)
    (ctx : list (string * CtxVal)) (now : float)
| CallCheckHealth (now : float)
| CallHeartbeat (agent_id : string) (info : HeartbeatInfo) (now : float)
| CallPaxos (message : PaxosMessage)
| CallMessageSent (thread : string) (sent_at updated_at : float).

Section Runs.

Variable cfg : Config.
Variable import_time : float.

(** The node after one call, whether the call returned or raised. *)
Definition step (self : DistributedAgentCoordinator) (c : Call)
  : DistributedAgentCoordinator :=
  match c with
  | CallStart now => Coordinator.start now self
  | CallAssign t e s now => fst (Coordinator.assign_agent_for_email cfg self t e s now)
  | CallUpsert t a ctx now =>
      fst (Coordinator._update_conversation_state cfg self t a ctx now)
  | CallCheckHealth now => fst (Coordinator._check_agent_health cfg now self)
  | CallHeartbeat a info now =>
      fst (Coordinator.handle_heartbeat import_time self a info now)
  | CallPaxos m => fst (Coordinator.paxos_route self m)
  | CallMessageSent t sent_at updated_at =>
      Coordinator._handle_message_sent self t sent_at updated_at
  end.

Definition run (self : DistributedAgentCoordinator) (calls : list Call)
  : DistributedAgentCoordinator :=
  fold_left step calls self.

End Runs.

(** [c'] holds, for every thread of [c], the same state or one of a
    strictly greater version. *)
Definition advances (c c' : list (string * ConversationState)) : Prop :=
  ∀ t old, od_get c t = Some old →
    ∃ new, od_get c' t = Some new ∧ (new = old ∨ version old < version new).

Definition cluster_nodes_nonempty (self : PaxosCoordinator) : Prop :=
  Paxos.cluster_nodes self ≠ [].

(** The id [generate_proposal_id] issues at clock reading [ms]. *)
Definition proposal_id_at (py_hash : string → Z) (ms : Z) (self : PaxosCoordinator) : Z :=
  let n := Z.of_nat (length (Paxos.cluster_nodes self)) in
  ms * n + py_hash (Paxos.node_id self) mod n.

(** The list [_select_replica_nodes] returns for a node [me], the healthy
    nodes [healthy] of its table (in table order) and a [count] of at least 1. *)
Definition replica_list (me : string) (healthy : list string) (count : Z)
  : list string :=
  me :: take (Z.to_nat (count - 1))
          (List.filter (fun node => negb (bool_decide (node = me))) healthy).

(** The state [_update_conversation_state] stores when the agent table
    gives the healthy nodes [healthy]. *)
Definition stored_state (cfg : Config) (self : DistributedAgentCoordinator)
    (thread : string) (agent_id : option string) (ctx : list (string * CtxVal))
    (now : float) (healthy : list string) : ConversationState :=
  {| thread_id := thread; assigned_agent := agent_id; context := ctx;
     last_updated := now;
     version := match od_get (Coordinator.conversations self) thread with
                | Some old => version old + 1
                | None => 1
                end;
     replicas :=
       list_to_set (replica_list (Coordinator.node_id self) healthy
                      (STATE_REPLICATION_FACTOR cfg)) |}.

(** ** Acceptors under a stream of messages *)

(** The acceptor after handling the messages of [msgs] in order. *)
Definition receive_all (self : PaxosCoordinator) (msgs : list PaxosMessage)
  : PaxosCoordinator :=
  fold_left (fun s m => fst (Paxos.handle_paxos_message s m)) msgs self.

(** What an acceptor has accepted was accepted under an id it has promised. *)
Definition acceptor_ok (self : PaxosCoordinator) : Prop :=
  Paxos.accepted_id self ≤ Paxos.promised_id self.

(** A one-node cluster whose member is the process itself. *)
Definition alone (cfg : Config) (self : PaxosCoordinator) : Prop :=
  CLUSTER_NODES cfg = [FLASK_ADDR cfg] ∧ Paxos.cluster_nodes self = [FLASK_ADDR cfg].

(** ** The status report *)

(** The dict [get_system_status] returns. *)
Record SystemStatus := {
  status_node_id : string;
  system_health : string;
  total_agents : Z;
  active_agents : Z;
  agents_by_specialization : list (string * Z);
  status_agent_health : list (string * Health.Entry);
  total_conversations : Z;
  status_running : bool
}.

(** [len(agents)] for every value of [self.agents], in dict order; [len] of
    an [AgentInfo] raises. *)
Fixpoint agent_list_lengths (items : list (string * AgentsEntry))
  : result (list (string * Z)) :=
  match items with
  | [] => Ok []
  | (_, AgentRec _) :: _ => Raise TypeError
  | (spec, AgentIds ids) :: rest =>
      match agent_list_lengths rest with
      | Raise e => Raise e
      | Ok l => Ok ((spec, Z.of_nat (length ids)) :: l)
      end
  end.

(** [get_system_status] *)
Definition get_system_status (self : DistributedAgentCoordinator)
  : result SystemStatus :=
  match agent_list_lengths (Coordinator.agents self) with
  | Raise e => Raise e
  | Ok lens =>
      Ok {| status_node_id := Coordinator.node_id self;
            system_health :=
              if Coordinator.running self then "healthy" else "stopped";
            total_agents := foldr Z.add 0 (map snd lens);
            active_agents :=
              Z.of_nat (length
                (List.filter
                   (fun item => bool_decide (Health.status (snd item) = Some "healthy"))
                   (Coordinator.agent_health self)));
            agents_by_specialization := lens;
            status_agent_health := Coordinator.agent_health self;
            total_conversations :=
              Z.of_nat (length (Coordinator.conversations self));
            status_running := Coordinator.running self |}
  end.

(** ** Silent peers *)

(** What one scan does to the health entry of a peer other than the node
    itself, as [check_agent] writes it. *)
Definition scan_entry (cfg : Config) (current_time : float) (h : Health.Entry)
  : Health.Entry :=
  if PrimFloat.ltb (float_of_Z (HEALTH_CHECK_INTERVAL cfg * 2))
       (PrimFloat.sub current_time (default 0%float (Health.last_heartbeat h)))
  then
    let failure_count := default 0 (Health.failure_count h) + 1 in
    Health.set_status (Health.set_failure_count h failure_count)
      (if failure_count >=? FAILURE_THRESHOLD cfg then "failed" else "suspected")
  else if default 0 (Health.failure_count h) >? 0
  then Health.set_status (Health.set_failure_count h 0) "healthy"
  else h.

(** The node after the loop body of the scan has run for [agent_id] once
    per clock reading of [times]. *)
Definition scans_of (cfg : Config) (times : list float)
    (self : DistributedAgentCoordinator) (agent_id : string)
  : DistributedAgentCoordinator :=
  fold_left (fun s t => fst (Coordinator.check_agent cfg t s agent_id)) times self.

(** Everything of a node but its conversation store. *)
Definition same_outside_store (s s' : DistributedAgentCoordinator) : Prop :=
  Coordinator.node_id s' = Coordinator.node_id s ∧
  Coordinator.agents s' = Coordinator.agents s ∧
  Coordinator.agent_health s' = Coordinator.agent_health s ∧
  Coordinator.paxos s' = Coordinator.paxos s ∧
  Coordinator.running s' = Coordinator.running s.

(** The keywords of [_classify_email]. *)
Definition support_words : list string := ["billing"; "payment"; "invoice"; "charge"].
Definition sales_words : list string := ["price"; "demo"; "sales"; "purchase"].

(** [w] occurs in [s] as a substring. *)
Definition occurs_in (w s : string) : Prop :=
  ∃ pre post, s = String.append pre (String.append w post).

(** [(k, e)] is an item of the dict [d]. *)
Definition od_in {V : Type} (k : string) (e : V) (d : list (string * V)) : Prop :=
  In (k, e) d.

(** ** What the constructor's agent table implies *)

(** Holds of the node the constructor builds and is kept by every call: a
    list of agent ids sits under some key of the agent table, the store is
    empty and the health table holds at most the node's own entry. *)
Definition constructor_invariant (cfg : Config) (s : DistributedAgentCoordinator)
  : Prop :=
  Coordinator.node_id s = NODE_ID cfg ∧
  (∃ k ids, od_get (Coordinator.agents s) k = Some (AgentIds ids)) ∧
  Coordinator.conversations s = [] ∧
  (Coordinator.agent_health s = [] ∨
   ∃ h, Coordinator.agent_health s = [(NODE_ID cfg, h)]).

(** The [AgentInfo] a first heartbeat registers. *)
Definition registered_agent (import_time : float) (agent_id : string)
    (info : HeartbeatInfo) : AgentInfo :=
  {| Agent.node_id := agent_id;
     Agent.host := default "unknown" (hb_host info);
     Agent.port := default 0 (hb_port info);
     Agent.status := HEALTHY;
     Agent.specializations := default ["general"] (hb_specializations info);
     Agent.load := 0%float; Agent.last_heartbeat := import_time;
     Agent.failure_count := 0 |}.

(** The clock reading [t] is past the liveness window of the entry [h]. *)
Definition silent_at (cfg : Config) (h : Health.Entry) (t : float) : Prop :=
  PrimFloat.ltb (float_of_Z (HEALTH_CHECK_INTERVAL cfg * 2))
    (PrimFloat.sub t (default 0%float (Health.last_heartbeat h))) = true.

(** ** After [start()] *)

(** What [start()] establishes and every later call keeps: the node is
    listed alone under each of the three specializations and its own health
    entry says healthy. *)
Definition started (s : DistributedAgentCoordinator) : Prop :=
  (∀ spec, spec ∈ ["support"; "sales"; "general"] →
     od_get (Coordinator.agents s) spec = Some (AgentIds [Coordinator.node_id s])) ∧
  ∃ h, od_get (Coordinator.agent_health s) (Coordinator.node_id s) = Some h ∧
       Health.status h = Some "healthy".


(** ** Eligible candidates *)

(** Stated from the specification, to be compared with
    [_get_available_agents]: an agent is an eligible candidate for a
    specialization when it is listed under the specialization in the agent
    table and its health entry says healthy. *)
Definition eligible_candidate (self : DistributedAgentCoordinator)
    (specialization a : string) : Prop :=
  (∃ ids, od_get (Coordinator.agents self) specialization = Some (AgentIds ids) ∧
          a ∈ ids) ∧
  ∃ h, od_get (Coordinator.agent_health self) a = Some h ∧
       Health.status h = Some "healthy".

(** The configuration of a process started with [NODE_ID=general]. *)
Definition general_cfg : Config :=
  {| NODE_ID := "general"; CLUSTER_NODES := ["localhost:5000"];
     FLASK_HOST := "localhost"; FLASK_PORT := 5000;
     FLASK_ADDR := "localhost:5000"; HEALTH_CHECK_INTERVAL := 10;
     FAILURE_THRESHOLD := 3; STATE_REPLICATION_FACTOR := 3 |}.

(** * Properties *)

(** ** Insertion-ordered dicts *)

Lemma od_get_set_eq {V : Type} (d : list (string * V)) k v :
  od_get (od_set d k v) k = Some v.
Proof.
  induction d as [|[k' v'] d IH]; simpl.
  - by rewrite decide_True.
  - destruct (decide (k' = k)) as [->|Hne]; simpl.
    + by rewrite decide_True.
    + by rewrite decide_False.
Qed.

Lemma od_get_set_ne {V : Type} (d : list (string * V)) k k' v :
  k ≠ k' → od_get (od_set d k v) k' = od_get d k'.
Proof.
  intros Hne. induction d as [|[k0 v0] d IH]; simpl.
  - by rewrite decide_False.
  - destruct (decide (k0 = k)) as [->|Hk]; simpl.
    + by rewrite !decide_False.
    + destruct (decide (k0 = k')); [done|apply IH].
Qed.

Lemma od_get_In {V : Type} (d : list (string * V)) k v :
  od_get d k = Some v → In (k, v) d.
Proof.
  induction d as [|[k' v'] d IH]; simpl; [done|].
  destruct (decide (k' = k)) as [->|]; intros H.
  - left. congruence.
  - right. by apply IH.
Qed.

(** ** The consensus engine *)

Lemma generate_proposal_id_value py_hash ms self :
  cluster_nodes_nonempty self →
  Paxos.generate_proposal_id py_hash ms self =
    (Paxos.set_proposal_id self (proposal_id_at py_hash ms self),
     Ok (proposal_id_at py_hash ms self)).
Proof.
  unfold cluster_nodes_nonempty, Paxos.generate_proposal_id, proposal_id_at.
  intros Hne. destruct (Paxos.cluster_nodes self); [done|]. reflexivity.
Qed.

(** With a clock that advances by at least one millisecond between two
    calls the ids do increase. *)
Lemma generate_proposal_id_increases_with_clock py_hash self ms1 ms2 :
  cluster_nodes_nonempty self → ms1 < ms2 →
  proposal_id_at py_hash ms1 self < proposal_id_at py_hash ms2 self.
Proof.
  unfold cluster_nodes_nonempty, proposal_id_at. intros Hne Hlt.
  set (n := Z.of_nat (length (Paxos.cluster_nodes self))).
  assert (0 < n) by (subst n; destruct (Paxos.cluster_nodes self); [done|simpl; lia]).
  nia.
Qed.

(** C3 (the code breaks the claim). Two consecutive calls of
    [generate_proposal_id] on one node whose clock readings do not advance
    (the same millisecond, or a step backwards) issue a second id that is
    not greater than the first: no last-issued id is kept to bump from. *)
Theorem generate_proposal_id_not_monotone py_hash self ms1 ms2 self1 id1 :
  Paxos.generate_proposal_id py_hash ms1 self = (self1, Ok id1) →
  ms2 ≤ ms1 →
  ∃ self2 id2,
    Paxos.generate_proposal_id py_hash ms2 self1 = (self2, Ok id2) ∧ id2 ≤ id1.
Proof.
  unfold Paxos.generate_proposal_id. intros Hgen Hle.
  set (n := Z.of_nat (length (Paxos.cluster_nodes self))) in *.
  destruct (n =? 0) eqn:Hn; [done|].
  injection Hgen as <- <-. simpl. fold n. rewrite Hn.
  do 2 eexists. split; [reflexivity|].
  apply Z.eqb_neq in Hn. assert (0 < n) by lia. nia.
Qed.

Lemma generate_proposal_id_not_monotone_witness :
  ∃ self2 id2,
    Paxos.generate_proposal_id (fun _ => 7) 1000
      (Paxos.set_proposal_id (Paxos.init "agent-1" ["a:1"; "b:1"; "c:1"]) 3001)
      = (self2, Ok id2) ∧ id2 ≤ 3001.
Proof.
  apply (generate_proposal_id_not_monotone (fun _ => 7)
           (Paxos.init "agent-1" ["a:1"; "b:1"; "c:1"]) 1000 1000).
  - reflexivity.
  - lia.
Defined.

(** C1 (the code breaks the claim). On a one-node cluster two coroutines run
    [propose_value] on the same coordinator; both reach their prepare round
    before either sends its accept. Every message is answered, both calls
    return success, and they return different values: the rejection that
    [_handle_accept] builds for the older proposal has type ACCEPTED and
    [_send_accept] counts it. *)
Theorem propose_value_duel_decides_two_values (py_hash : string → Z) :
  ∃ w1 w2 w3 w4 id1 id2 promises1 promises2,
    Paxos.propose_prepare py_hash demo_cfg all_up 1000 demo_world
      = (w1, Ok (id1, promises1)) ∧
    Paxos.propose_prepare py_hash demo_cfg all_up 1001 w1
      = (w2, Ok (id2, promises2)) ∧
    Paxos.propose_resume demo_cfg all_up id1 (VStr "agent-a") promises1 w2
      = (w3, Ok (true, VStr "agent-a")) ∧
    Paxos.propose_resume demo_cfg all_up id2 (VStr "agent-b") promises2 w3
      = (w4, Ok (true, VStr "agent-b")).
Proof.
  assert (Hid : ∀ ms self, Paxos.cluster_nodes self = ["localhost:5000"] →
            Paxos.generate_proposal_id py_hash ms self
            = (Paxos.set_proposal_id self ms, Ok ms)).
  { intros ms self Hc. unfold Paxos.generate_proposal_id. rewrite Hc. simpl.
    rewrite Z.mod_1_r, Z.mul_1_r, Z.add_0_r. reflexivity. }
  do 8 eexists. split; [|split; [|split]].
  - unfold Paxos.propose_prepare, demo_world. rewrite Hid by reflexivity.
    vm_compute. reflexivity.
  - unfold Paxos.propose_prepare. rewrite Hid by reflexivity.
    vm_compute. reflexivity.
  - vm_compute. reflexivity.
  - vm_compute. reflexivity.
Qed.

(** C4 (the code breaks the claim). An acceptor that has promised 1001
    answers [Accept(1000, v)] with a rejection; [_send_accept] returns that
    rejection among the acceptances and [propose_value] resumes to success
    with no positive acceptance at all. In the prepare round a rejection is
    counted as well: the call passes the quorum test and then raises instead
    of returning failure. A peer that does not answer is counted in neither
    round. *)
Theorem propose_value_counts_rejections (py_hash : string → Z) :
  let promised := Paxos.set_promised_id (Paxos.init "agent-1" ["localhost:5000"]) 1001 in
  let w : Paxos.World := (promised, ∅) in
  let promise :=
    {| Message.msg_type := PROMISE; Message.proposal_id := 1000;
       Message.value := VNone; Message.promised_id := Some 1000;
       Message.accepted_id := Some (-1); Message.accepted_value := VNone |} in
  (∃ nack, snd (Paxos._send_accept demo_cfg all_up 1000 (VStr "agent-a") w) = [nack]
           ∧ Message.accepted_id nack = Some (-1)
           ∧ fst (Paxos._send_accept demo_cfg all_up 1000 (VStr "agent-a") w) = w) ∧
  snd (Paxos.propose_resume demo_cfg all_up 1000 (VStr "agent-a") [promise] w)
    = Ok (true, VStr "agent-a") ∧
  snd (Paxos.propose_value py_hash demo_cfg all_up 999 (VStr "agent-c") w)
    = Raise TypeError ∧
  snd (Paxos.propose_value py_hash demo_cfg (fun _ => false) 2000 (VStr "agent-c")
         (Paxos.init "agent-1" ["peer:5000"], ∅))
    = Ok (false, VNone).
Proof.
  assert (Hid : ∀ ms self n, Paxos.cluster_nodes self = [n] →
            Paxos.generate_proposal_id py_hash ms self
            = (Paxos.set_proposal_id self ms, Ok ms)).
  { intros ms self n Hc. unfold Paxos.generate_proposal_id. rewrite Hc. simpl.
    rewrite Z.mod_1_r, Z.mul_1_r, Z.add_0_r. reflexivity. }
  cbv zeta. split; [|split; [|split]].
  - eexists. split; [|split]; vm_compute; reflexivity.
  - vm_compute. reflexivity.
  - unfold Paxos.propose_value, Paxos.propose_prepare.
    rewrite (Hid _ _ "localhost:5000") by reflexivity. vm_compute. reflexivity.
  - unfold Paxos.propose_value, Paxos.propose_prepare.
    rewrite (Hid _ _ "peer:5000") by reflexivity. vm_compute. reflexivity.
Qed.

(** ** The assignment dispatcher *)

Lemma healthy_nodes_raises_on_list items k ids :
  In (k, AgentIds ids) items →
  Coordinator.healthy_nodes items = Raise AttributeError.
Proof.
  induction items as [|[k0 [ids0|a0]] items IH]; simpl; [done|done|].
  intros [Heq|Hin]; [congruence|]. by rewrite IH.
Qed.

Lemma _update_conversation_state_raises_on_list cfg self k ids t a ctx now :
  In (k, AgentIds ids) (Coordinator.agents self) →
  Coordinator._update_conversation_state cfg self t a ctx now
    = (self, Raise AttributeError).
Proof.
  intros Hin. unfold Coordinator._update_conversation_state,
    Coordinator._select_replica_nodes.
  by rewrite (healthy_nodes_raises_on_list _ _ _ Hin).
Qed.

Lemma candidates_come_from_a_list self specialization c cs :
  Coordinator._get_available_agents self specialization = Ok (c :: cs) →
  ∃ ids, In (specialization, AgentIds ids) (Coordinator.agents self).
Proof.
  unfold Coordinator._get_available_agents.
  destruct (od_get (Coordinator.agents self) specialization) as [[ids|a]|] eqn:Hget;
    [|done|done].
  intros _. exists ids. by apply od_get_In.
Qed.

Lemma set_paxos_same self :
  Coordinator.set_paxos self (Coordinator.paxos self) = self.
Proof. by destruct self. Qed.

Lemma bump_load_paxos self a :
  Coordinator.paxos (Coordinator.bump_load self a) = Coordinator.paxos self.
Proof.
  unfold Coordinator.bump_load. destruct a as [a|]; [|done].
  by destruct (od_get (Coordinator.agent_health self) a).
Qed.

Lemma _update_conversation_state_paxos cfg self t a ctx now :
  Coordinator.paxos (fst (Coordinator._update_conversation_state cfg self t a ctx now))
    = Coordinator.paxos self.
Proof.
  unfold Coordinator._update_conversation_state.
  by destruct (Coordinator._select_replica_nodes self _).
Qed.


(** [assign_agent_for_email] does not call [propose_value] ("Simplified
    assignment - no consensus needed"): whatever the call does, the proposer
    and acceptor state of the node is the one it started with. On a node
    whose acceptor already holds another proposer's accepted value,
    [propose_value] would return that value as decided, while the dispatcher
    goes on with its own candidate; the call then raises in the upsert. *)
Lemma assign_agent_for_email_skips_consensus :
  (∀ cfg self thread email_content sender now,
     Coordinator.paxos
       (fst (Coordinator.assign_agent_for_email cfg self thread email_content sender now))
     = Coordinator.paxos self) ∧
  (∀ py_hash,
     snd (Paxos.propose_value py_hash demo_cfg all_up 2000 (VStr "agent-1")
            (Coordinator.paxos busy_node, ∅))
     = Ok (true, VStr "agent-b")) ∧
  Coordinator._get_available_agents busy_node
    (Coordinator._classify_email "hello" "user@example.com") = Ok ["agent-1"] ∧
  Coordinator._select_best_agent busy_node ["agent-1"] = Some "agent-1" ∧
  Coordinator.assign_agent_for_email demo_cfg busy_node "t1" "hello"
    "user@example.com" 101%float = (busy_node, Raise AttributeError).
Proof.
  split; [|split; [|split; [|split]]].
  - intros. unfold Coordinator.assign_agent_for_email.
    destruct (Coordinator._get_available_agents self _) as [[|c cs]|e]; [done| |done].
    pose proof (_update_conversation_state_paxos cfg self thread
      (Coordinator._select_best_agent self (c :: cs))
      [("email_content", CStr email_content); ("sender", CStr sender);
       ("specialization", CStr (Coordinator._classify_email email_content sender))]
      now) as Hp.
    destruct (Coordinator._update_conversation_state _ _ _ _ _ _) as [self1 [pushes|e]];
      cbn [fst] in *; [|done].
    by rewrite bump_load_paxos.
  - intros py_hash. unfold Paxos.propose_value, Paxos.propose_prepare,
      Paxos.generate_proposal_id. simpl.
    rewrite Z.mod_1_r. vm_compute. reflexivity.
  - vm_compute. reflexivity.
  - vm_compute. reflexivity.
  - vm_compute. reflexivity.
Qed.

(** No call of [assign_agent_for_email] returns an agent. Candidates exist
    only when [self.agents] holds a list under the specialization, and
    [_select_replica_nodes] reads [.status] of every value of [self.agents]:
    the call raises [AttributeError] before the store and the load are
    touched. On the node as [start()] leaves it the load of the only agent
    stays 0.1. *)
Lemma assign_agent_for_email_never_assigns :
  Coordinator.assign_agent_for_email demo_cfg demo_node "t1" "hello"
    "user@example.com" 101%float = (demo_node, Raise AttributeError) ∧
  (Health.load <$> od_get (Coordinator.agent_health demo_node) "agent-1")
    = Some (Some f0_1) ∧
  (∀ cfg self thread email_content sender now a,
     snd (Coordinator.assign_agent_for_email cfg self thread email_content sender now)
       ≠ Ok (Some a)).
Proof.
  split; [vm_compute; reflexivity|]. split; [vm_compute; reflexivity|].
  intros cfg self thread email_content sender now a.
  unfold Coordinator.assign_agent_for_email.
  destruct (Coordinator._get_available_agents self _) as [[|c cs]|e] eqn:Hc;
    [done| |done].
  destruct (candidates_come_from_a_list _ _ _ _ Hc) as [ids Hin].
  by rewrite (_update_conversation_state_raises_on_list cfg self _ _ _ _ _ _ Hin).
Qed.



Lemma _get_available_agents_spec self specialization :
  match od_get (Coordinator.agents self) specialization with
  | None => Coordinator._get_available_agents self specialization = Ok []
  | Some (AgentRec _) =>
      Coordinator._get_available_agents self specialization = Raise TypeError
  | Some (AgentIds ids) =>
      ∃ l, Coordinator._get_available_agents self specialization = Ok l ∧
           l `sublist_of` ids ∧
           ∀ a, a ∈ l ↔
             a ∈ ids ∧
             ∃ h, od_get (Coordinator.agent_health self) a = Some h ∧
                  Health.status h = Some "healthy"
  end.
Proof.
  unfold Coordinator._get_available_agents.
  destruct (od_get (Coordinator.agents self) specialization) as [[ids|a]|];
    [|done|done].
  eexists. split; [done|]. split.
  - induction ids as [|x ids IH]; simpl; [done|].
    destruct (Coordinator.is_healthy self x); by constructor.
  - intros a. rewrite list_elem_of_In, filter_In, <- list_elem_of_In.
    unfold Coordinator.is_healthy.
    destruct (od_get (Coordinator.agent_health self) a) as [h|].
    + rewrite bool_decide_eq_true. split.
      * intros [Hin Hs]. eauto.
      * intros (Hin & h' & [= <-] & Hs). done.
    + split; [intros [_ ?]; done|]. intros (_ & h & ? & _). done.
Qed.

(** C8 (amended). When no agent is an eligible candidate for the
    classification of the message, [assign_agent_for_email] assigns no node
    and leaves the whole node, its conversation store included, exactly as
    it was. What the caller gets is [None], a plain value and no typed
    error, when the key of the specialization is absent from the agent table
    or holds a list; when that key holds an [AgentInfo] the call raises
    [TypeError]. *)
Theorem assign_agent_for_email_without_candidates
    cfg self thread email_content sender now :
  (∀ a, ¬ eligible_candidate self (Coordinator._classify_email email_content sender) a) →
  Coordinator.assign_agent_for_email cfg self thread email_content sender now
    = (self,
       match od_get (Coordinator.agents self)
               (Coordinator._classify_email email_content sender) with
       | Some (AgentRec _) => Raise TypeError
       | _ => Ok None
       end).
Proof.
  intros Hnone. unfold Coordinator.assign_agent_for_email.
  pose proof (_get_available_agents_spec self
                (Coordinator._classify_email email_content sender)) as Hspec.
  revert Hspec.
  destruct (od_get (Coordinator.agents self) _) as [[ids|rec]|] eqn:Hget;
    intros Hspec.
  - destruct Hspec as (l & Hl & _ & Hmem). rewrite Hl.
    destruct l as [|c cs]; [done|].
    destruct (proj1 (Hmem c)) as (Hin & h & Hh & Hs); [by left|].
    exfalso. apply (Hnone c). split; [by exists ids|by exists h].
  - by rewrite Hspec.
  - by rewrite Hspec.
Qed.

(** The node the constructor builds, before [start()]: its health table is
    empty, so no agent is eligible, and the call returns [None]. *)
Lemma assign_agent_for_email_without_candidates_witness :
  (∀ a, ¬ eligible_candidate (Coordinator.init demo_cfg 50%float)
            (Coordinator._classify_email "hello" "user@example.com") a) ∧
  Coordinator.assign_agent_for_email demo_cfg (Coordinator.init demo_cfg 50%float)
    "t1" "hello" "user@example.com" 101%float
    = (Coordinator.init demo_cfg 50%float, Ok None).
Proof.
  assert (Hnone : ∀ a, ¬ eligible_candidate (Coordinator.init demo_cfg 50%float)
                          (Coordinator._classify_email "hello" "user@example.com") a).
  { intros a (_ & h & Hh & _). discriminate Hh. }
  split; [exact Hnone|].
  exact (assign_agent_for_email_without_candidates demo_cfg
           (Coordinator.init demo_cfg 50%float) "t1" "hello" "user@example.com"
           101%float Hnone).
Defined.

(** C8 as stated fails: with no eligible candidate the caller gets no typed
    error. On the node the constructor builds the call returns a plain
    [None]; on the node of a process started with [NODE_ID=general] the key
    of the specialization holds the node's own [AgentInfo] and the call
    raises [TypeError]. Neither call writes anything. *)
Lemma assign_agent_for_email_no_typed_error :
  (∀ a, ¬ eligible_candidate (Coordinator.init demo_cfg 50%float) "general" a) ∧
  Coordinator._classify_email "hello" "user@example.com" = "general" ∧
  Coordinator.assign_agent_for_email demo_cfg (Coordinator.init demo_cfg 50%float)
    "t1" "hello" "user@example.com" 101%float
    = (Coordinator.init demo_cfg 50%float, Ok None) ∧
  (∀ a, ¬ eligible_candidate (Coordinator.init general_cfg 50%float) "general" a) ∧
  Coordinator.assign_agent_for_email general_cfg (Coordinator.init general_cfg 50%float)
    "t1" "hello" "user@example.com" 101%float
    = (Coordinator.init general_cfg 50%float, Raise TypeError).
Proof.
  split; [intros a (_ & h & Hh & _); discriminate Hh|].
  split; [vm_compute; reflexivity|].
  split; [vm_compute; reflexivity|].
  split; [intros a (_ & h & Hh & _); discriminate Hh|].
  vm_compute. reflexivity.
Qed.

(** When [_get_available_agents] returns the empty list,
    [assign_agent_for_email] returns [None] and the node, its conversation
    store included, is exactly as before. *)
Lemma assign_agent_for_email_no_candidate cfg self thread email_content sender now :
  Coordinator._get_available_agents self
    (Coordinator._classify_email email_content sender) = Ok [] →
  Coordinator.assign_agent_for_email cfg self thread email_content sender now
    = (self, Ok None).
Proof.
  intros Hc. unfold Coordinator.assign_agent_for_email. by rewrite Hc.
Qed.

Lemma assign_agent_for_email_no_candidate_witness :
  Coordinator._classify_email "Question about my invoice" "user@example.com"
    = "support" ∧
  Coordinator.assign_agent_for_email demo_cfg sales_only_node "t1"
    "Question about my invoice" "user@example.com" 101%float
    = (sales_only_node, Ok None).
Proof.
  split; [vm_compute; reflexivity|].
  apply (assign_agent_for_email_no_candidate demo_cfg sales_only_node).
  vm_compute. reflexivity.
Defined.

(** ** Replication *)

(** C6 (amended). A [STATE_SYNC] message that reaches a node is dropped:
    the handler returns no reply and the node, its conversation store
    included, is unchanged, whatever version the pushed state carries. *)
Theorem state_sync_is_dropped self message :
  Message.msg_type message = STATE_SYNC →
  Coordinator.paxos_route self message = (self, None).
Proof.
  intros Ht. unfold Coordinator.paxos_route, Paxos.handle_paxos_message.
  rewrite Ht. by rewrite set_paxos_same.
Qed.

Lemma state_sync_is_dropped_witness :
  Coordinator.paxos_route demo_node state_sync_push = (demo_node, None).
Proof. apply (state_sync_is_dropped demo_node state_sync_push). reflexivity. Defined.

(** C6 as stated fails: the node holds no entry for thread t1, a push of
    version 1 arrives, and the store still has no entry for t1. *)
Lemma state_sync_push_not_installed :
  ¬ (od_get (Coordinator.conversations demo_node) "t1" = None →
     od_get (Coordinator.conversations
               (fst (Coordinator.paxos_route demo_node state_sync_push))) "t1"
       = Some pushed_state).
Proof. intros H. specialize (H eq_refl). vm_compute in H. discriminate. Qed.

(** The sender's side: handing a [STATE_SYNC] message to [_send_message]
    changes no coordinator, local or remote, and yields no reply. *)
Lemma _send_message_state_sync cfg up node message w :
  Message.msg_type message = STATE_SYNC →
  fst w = fst (fst (Paxos._send_message cfg up node message w)) ∧
  snd (Paxos._send_message cfg up node message w) = None.
Proof.
  intros Ht. destruct w as [self peers]. unfold Paxos._send_message,
    Paxos.handle_paxos_message. rewrite Ht.
  destruct (decide (node = FLASK_ADDR cfg)); [done|].
  destruct (up node); [|done]. by destruct (peers !! node).
Qed.

(** ** Replica selection *)

Lemma size_list_to_set_le (l : list string) :
  (size (list_to_set l : gset string) ≤ length l)%nat.
Proof.
  induction l as [|x l IH].
  - by rewrite list_to_set_nil, size_empty.
  - rewrite list_to_set_cons, size_union_alt, size_singleton. simpl.
    pose proof (subseteq_size (list_to_set l ∖ {[x]} : gset string) (list_to_set l)
                  (subseteq_difference_l _ _ _ (reflexivity _))).
    lia.
Qed.

Lemma py_slice_to_nonneg {A : Type} (xs : list A) k :
  0 ≤ k → py_slice_to xs k = take (Z.to_nat k) xs.
Proof.
  intros Hk. unfold py_slice_to. by rewrite (proj2 (Z.leb_le 0 k) Hk).
Qed.

(** [_select_replica_nodes] written out for a table of [AgentInfo] objects. *)
Lemma _select_replica_nodes_value self count healthy :
  Coordinator.healthy_nodes (Coordinator.agents self) = Ok healthy →
  1 ≤ count →
  Coordinator._select_replica_nodes self count
    = Ok (replica_list (Coordinator.node_id self) healthy count).
Proof.
  intros Hh Hc. unfold Coordinator._select_replica_nodes, replica_list.
  rewrite Hh. by rewrite py_slice_to_nonneg by lia.
Qed.

(** X30. When the replication factor is at least 1 and the upsert stores a
    state, the replica set of that state contains the local node,
    has at most REPLICATION_FACTOR members, and is the set of the local node
    and the first REPLICATION_FACTOR - 1 other healthy nodes in the order of
    the agent table: a function of the node id, the factor and the ordered
    healthy nodes, in which the thread id plays no part. *)
Theorem upsert_replica_set cfg self thread agent_id ctx now self' pushes :
  1 ≤ STATE_REPLICATION_FACTOR cfg →
  Coordinator._update_conversation_state cfg self thread agent_id ctx now
    = (self', Ok pushes) →
  ∃ state healthy,
    od_get (Coordinator.conversations self') thread = Some state ∧
    Coordinator.healthy_nodes (Coordinator.agents self) = Ok healthy ∧
    replicas state
      = list_to_set (replica_list (Coordinator.node_id self) healthy
                       (STATE_REPLICATION_FACTOR cfg)) ∧
    Coordinator.node_id self ∈ replicas state ∧
    Z.of_nat (size (replicas state)) ≤ STATE_REPLICATION_FACTOR cfg.
Proof.
  intros Hrf. unfold Coordinator._update_conversation_state.
  destruct (Coordinator.healthy_nodes (Coordinator.agents self)) as [healthy|e] eqn:Hh.
  2:{ unfold Coordinator._select_replica_nodes. by rewrite Hh. }
  rewrite (_select_replica_nodes_value _ _ _ Hh Hrf).
  intros [= <- _]. eexists _, healthy.
  split; [apply od_get_set_eq|]. cbn [replicas].
  split; [done|]. split; [done|].
  split; [unfold replica_list; set_solver|].
  pose proof (size_list_to_set_le
    (replica_list (Coordinator.node_id self) healthy (STATE_REPLICATION_FACTOR cfg))) as Hs.
  unfold replica_list in Hs. rewrite list_to_set_cons in Hs.
  cbn [length] in Hs. rewrite length_take in Hs. lia.
Qed.


Lemma upsert_replica_set_witness :
  ∃ state healthy,
    od_get (Coordinator.conversations
              (fst (Coordinator._update_conversation_state demo_cfg
                      (table_node ["agent-b"; "agent-c"; "agent-d"])
                      "t1" (Some "agent-b") [] 101%float))) "t1" = Some state ∧
    Coordinator.healthy_nodes
      (Coordinator.agents (table_node ["agent-b"; "agent-c"; "agent-d"])) = Ok healthy ∧
    replicas state = list_to_set (replica_list "agent-1" healthy 3) ∧
    "agent-1" ∈ replicas state ∧
    Z.of_nat (size (replicas state)) ≤ 3.
Proof.
  eapply (upsert_replica_set demo_cfg (table_node ["agent-b"; "agent-c"; "agent-d"])
            "t1" (Some "agent-b") [] 101%float).
  - simpl. lia.
  - unfold Coordinator._update_conversation_state; simpl; reflexivity.
Defined.


Lemma _update_conversation_state_stores cfg self thread agent_id ctx now healthy :
  Coordinator.healthy_nodes (Coordinator.agents self) = Ok healthy →
  1 ≤ STATE_REPLICATION_FACTOR cfg →
  ∃ pushes,
    Coordinator._update_conversation_state cfg self thread agent_id ctx now
    = (Coordinator.set_conversations self
         (od_set (Coordinator.conversations self) thread
            (stored_state cfg self thread agent_id ctx now healthy)),
       Ok pushes).
Proof.
  intros Hh Hrf. unfold Coordinator._update_conversation_state.
  rewrite (_select_replica_nodes_value _ _ _ Hh Hrf). eexists. reflexivity.
Qed.

(** The order of the agent table matters: two nodes with the same id whose
    tables hold the same healthy peers, registered in a different order,
    store different replica sets for the same thread. *)
Lemma replica_set_depends_on_table_order :
  let n1 := table_node ["agent-b"; "agent-c"; "agent-d"] in
  let n2 := table_node ["agent-d"; "agent-c"; "agent-b"] in
  let stored n :=
    od_get (Coordinator.conversations
              (fst (Coordinator._update_conversation_state demo_cfg n "t1"
                      (Some "agent-b") [] 101%float))) "t1" in
  healthy_peer_set n1 = healthy_peer_set n2 ∧
  ∃ s1 s2, stored n1 = Some s1 ∧ stored n2 = Some s2 ∧ replicas s1 ≠ replicas s2.
Proof.
  cbv zeta.
  assert (H1 : Coordinator.healthy_nodes
                 (Coordinator.agents (table_node ["agent-b"; "agent-c"; "agent-d"]))
               = Ok ["agent-1"; "agent-b"; "agent-c"; "agent-d"]) by reflexivity.
  assert (H2 : Coordinator.healthy_nodes
                 (Coordinator.agents (table_node ["agent-d"; "agent-c"; "agent-b"]))
               = Ok ["agent-1"; "agent-d"; "agent-c"; "agent-b"]) by reflexivity.
  assert (Hrf : 1 ≤ STATE_REPLICATION_FACTOR demo_cfg) by (simpl; lia).
  split.
  - unfold healthy_peer_set. rewrite H1, H2. apply set_eq. intros x.
    rewrite !elem_of_list_to_set, !elem_of_cons, !elem_of_nil. tauto.
  - destruct (_update_conversation_state_stores demo_cfg _ "t1" (Some "agent-b") []
                101%float _ H1 Hrf) as [p1 ->].
    destruct (_update_conversation_state_stores demo_cfg _ "t1" (Some "agent-b") []
                101%float _ H2 Hrf) as [p2 ->].
    cbn [fst Coordinator.conversations Coordinator.set_conversations].
    rewrite !od_get_set_eq. eexists _, _. split; [reflexivity|]. split; [reflexivity|].
    unfold stored_state. cbn [replicas].
    change (replica_list _ _ _) with ["agent-1"; "agent-b"; "agent-c"] at 1.
    change (replica_list _ _ _) with ["agent-1"; "agent-d"; "agent-c"].
    intros Heq.
    assert (Hin : "agent-b" ∈ (list_to_set ["agent-1"; "agent-d"; "agent-c"] : gset string)).
    { rewrite <- Heq. rewrite elem_of_list_to_set, !elem_of_cons. auto. }
    rewrite elem_of_list_to_set, !elem_of_cons, elem_of_nil in Hin.
    destruct Hin as [?|[?|[?|[]]]]; discriminate.
Qed.

(** ** The conversation store *)

Lemma advances_refl c : advances c c.
Proof. intros t old Hget. exists old. auto. Qed.

Lemma advances_trans c1 c2 c3 : advances c1 c2 → advances c2 c3 → advances c1 c3.
Proof.
  intros H12 H23 t old Hget.
  destruct (H12 t old Hget) as (mid & Hmid & Hcmp).
  destruct (H23 t mid Hmid) as (new & Hnew & Hcmp').
  exists new. split; [done|].
  destruct Hcmp as [->|Hlt]; [done|].
  destruct Hcmp' as [->|Hlt']; right; [done|lia].
Qed.

Lemma od_set_advances c t state :
  (∀ old, od_get c t = Some old → version old < version state) →
  advances c (od_set c t state).
Proof.
  intros Hv t' old Hget. destruct (decide (t = t')) as [<-|Hne].
  - exists state. rewrite od_get_set_eq. split; [done|]. right. by apply Hv.
  - exists old. rewrite od_get_set_ne by done. auto.
Qed.

Lemma _update_conversation_state_advances cfg self t a ctx now :
  advances (Coordinator.conversations self)
    (Coordinator.conversations
       (fst (Coordinator._update_conversation_state cfg self t a ctx now))).
Proof.
  unfold Coordinator._update_conversation_state.
  destruct (Coordinator._select_replica_nodes self _) as [replica_nodes|e];
    [|apply advances_refl].
  cbn [fst Coordinator.conversations Coordinator.set_conversations].
  apply od_set_advances. intros old Hget. rewrite Hget. cbn [version]. lia.
Qed.

Lemma _handle_message_sent_advances self t sent_at updated_at :
  advances (Coordinator.conversations self)
    (Coordinator.conversations
       (Coordinator._handle_message_sent self t sent_at updated_at)).
Proof.
  unfold Coordinator._handle_message_sent.
  destruct (od_get (Coordinator.conversations self) t) as [state|] eqn:Hget;
    [|apply advances_refl].
  cbn [Coordinator.conversations Coordinator.set_conversations].
  apply od_set_advances. intros old Hold. rewrite Hget in Hold.
  injection Hold as <-. cbn [version]. lia.
Qed.

Lemma bump_load_conversations self a :
  Coordinator.conversations (Coordinator.bump_load self a)
    = Coordinator.conversations self.
Proof.
  unfold Coordinator.bump_load. destruct a as [a|]; [|done].
  by destruct (od_get (Coordinator.agent_health self) a).
Qed.

Lemma assign_agent_for_email_advances cfg self t e s now :
  advances (Coordinator.conversations self)
    (Coordinator.conversations
       (fst (Coordinator.assign_agent_for_email cfg self t e s now))).
Proof.
  unfold Coordinator.assign_agent_for_email.
  destruct (Coordinator._get_available_agents self _) as [[|c cs]|err];
    [apply advances_refl| |apply advances_refl].
  pose proof (_update_conversation_state_advances cfg self t
    (Coordinator._select_best_agent self (c :: cs))
    [("email_content", CStr e); ("sender", CStr s);
     ("specialization", CStr (Coordinator._classify_email e s))] now) as Hadv.
  destruct (Coordinator._update_conversation_state _ _ _ _ _ _) as [self1 [pushes|err]];
    cbn [fst] in *; [|done].
  by rewrite bump_load_conversations.
Qed.

Lemma for_each_advances {A : Type}
    (body : DistributedAgentCoordinator → A → DistributedAgentCoordinator * result unit)
    (xs : list A) (self : DistributedAgentCoordinator) :
  (∀ s x, advances (Coordinator.conversations s)
            (Coordinator.conversations (fst (body s x)))) →
  advances (Coordinator.conversations self)
    (Coordinator.conversations (fst (Coordinator.for_each body xs self))).
Proof.
  intros Hbody. revert self. induction xs as [|x xs IH]; intros self; simpl.
  - apply advances_refl.
  - pose proof (Hbody self x) as Hx.
    destruct (body self x) as [s1 [[]|err]]; cbn [fst] in *; [|done].
    eapply advances_trans; [exact Hx|apply IH].
Qed.

Lemma reassign_advances cfg now self t :
  advances (Coordinator.conversations self)
    (Coordinator.conversations (fst (Coordinator.reassign cfg now self t))).
Proof.
  unfold Coordinator.reassign.
  destruct (od_get (Coordinator.conversations self) t) as [state|];
    [|apply advances_refl].
  match goal with
  | |- context [match ?cands with Ok _ => _ | Raise _ => _ end] =>
      destruct cands as [[|c cs]|err]
  end; [apply advances_refl| |apply advances_refl].
  pose proof (_update_conversation_state_advances cfg self t
    (Coordinator._select_best_agent self (c :: cs)) (context state) now) as Hadv.
  by destruct (Coordinator._update_conversation_state _ _ _ _ _ _) as [self1 [pushes|err]].
Qed.

Lemma _handle_agent_failure_advances cfg now self failed :
  advances (Coordinator.conversations self)
    (Coordinator.conversations
       (fst (Coordinator._handle_agent_failure cfg now self failed))).
Proof.
  unfold Coordinator._handle_agent_failure. apply for_each_advances.
  intros. apply reassign_advances.
Qed.

Lemma check_agent_advances cfg now self agent_id :
  advances (Coordinator.conversations self)
    (Coordinator.conversations (fst (Coordinator.check_agent cfg now self agent_id))).
Proof.
  unfold Coordinator.check_agent.
  destruct (decide (agent_id = Coordinator.node_id self)); [apply advances_refl|].
  destruct (od_get (Coordinator.agent_health self) agent_id) as [h|].
  2:{ destruct (PrimFloat.ltb _ _); apply advances_refl. }
  destruct (PrimFloat.ltb _ _).
  - destruct (_ >=? _); [|apply advances_refl].
    destruct (bool_decide _); [apply advances_refl|].
    apply (_handle_agent_failure_advances cfg now
             (Coordinator.set_agent_health self _) agent_id).
  - destruct (_ >? _); apply advances_refl.
Qed.

Lemma step_advances cfg import_time self c :
  advances (Coordinator.conversations self)
    (Coordinator.conversations (step cfg import_time self c)).
Proof.
  destruct c; simpl.
  - apply advances_refl.
  - apply assign_agent_for_email_advances.
  - apply _update_conversation_state_advances.
  - unfold Coordinator._check_agent_health. apply for_each_advances.
    intros. apply check_agent_advances.
  - unfold Coordinator.handle_heartbeat.
    destruct (od_get (Coordinator.agents self) agent_id) as [[ids|a]|];
      apply advances_refl.
  - unfold Coordinator.paxos_route.
    destruct (Paxos.handle_paxos_message _ _). apply advances_refl.
  - apply _handle_message_sent_advances.
Qed.

Lemma run_advances cfg import_time calls self :
  advances (Coordinator.conversations self)
    (Coordinator.conversations (run cfg import_time self calls)).
Proof.
  unfold run. revert self. induction calls as [|c calls IH]; intros self; simpl.
  - apply advances_refl.
  - eapply advances_trans; [apply step_advances|apply IH].
Qed.

(** X29. An upsert whose replica selection returns stores a state of version
    old.version + 1 when the thread has an entry and of version 1 otherwise;
    an upsert whose replica selection raises stores nothing. Over any run of
    calls on the node (assignments, upserts, health scans, heartbeats, Paxos
    and state-sync messages, message-sent events) a thread never loses its
    entry, and whenever the entry held for a thread changes its version is
    strictly greater than before. *)
Theorem upsert_versions_strictly_increase cfg import_time self :
  (∀ thread agent_id ctx now replica_nodes,
     Coordinator._select_replica_nodes self (STATE_REPLICATION_FACTOR cfg)
       = Ok replica_nodes →
     ∃ self' pushes state,
       Coordinator._update_conversation_state cfg self thread agent_id ctx now
         = (self', Ok pushes) ∧
       od_get (Coordinator.conversations self') thread = Some state ∧
       version state = match od_get (Coordinator.conversations self) thread with
                       | Some old => version old + 1
                       | None => 1
                       end) ∧
  (∀ thread agent_id ctx now e,
     Coordinator._select_replica_nodes self (STATE_REPLICATION_FACTOR cfg) = Raise e →
     Coordinator._update_conversation_state cfg self thread agent_id ctx now
       = (self, Raise e)) ∧
  (∀ calls,
     advances (Coordinator.conversations self)
       (Coordinator.conversations (run cfg import_time self calls))).
Proof.
  split; [|split].
  - intros thread agent_id ctx now replica_nodes Hsel.
    unfold Coordinator._update_conversation_state. rewrite Hsel.
    eexists _, _, _. split; [reflexivity|].
    cbn [Coordinator.conversations Coordinator.set_conversations].
    split; [apply od_get_set_eq|reflexivity].
  - intros thread agent_id ctx now e Hsel.
    unfold Coordinator._update_conversation_state. by rewrite Hsel.
  - intros calls. apply run_advances.
Qed.

(** Three writes to one thread on a node whose table lets the upsert
    through: versions 1, 2 and 3. *)
Lemma upsert_versions_strictly_increase_witness :
  let node := table_node ["agent-b"] in
  let calls :=
    [CallUpsert "t1" (Some "agent-b") [] 101%float;
     CallUpsert "t1" (Some "agent-1") [] 102%float;
     CallMessageSent "t1" 103%float 104%float] in
  (version <$> od_get (Coordinator.conversations (run demo_cfg 50%float node (take 1 calls))) "t1")
    = Some 1 ∧
  (version <$> od_get (Coordinator.conversations (run demo_cfg 50%float node (take 2 calls))) "t1")
    = Some 2 ∧
  (version <$> od_get (Coordinator.conversations (run demo_cfg 50%float node calls)) "t1")
    = Some 3 ∧
  advances
    (Coordinator.conversations (run demo_cfg 50%float node (take 1 calls)))
    (Coordinator.conversations
       (run demo_cfg 50%float (run demo_cfg 50%float node (take 1 calls)) (drop 1 calls))).
Proof.
  cbv zeta. split; [reflexivity|]. split; [reflexivity|]. split; [reflexivity|].
  apply (upsert_versions_strictly_increase demo_cfg 50%float).
Defined.

(** ** The failure detector *)




(** The detector does not see arriving heartbeats: [handle_heartbeat]
    writes the agent table only. A peer whose heartbeat on record is 50
    seconds old is counted as a miss by the scan although it sent heartbeats
    2 seconds and 1 second before it. *)
Lemma heartbeats_do_not_reach_the_detector :
  let heartbeat :=
    {| hb_host := Some "10.0.0.2"; hb_port := Some 5000;
       hb_specializations := Some ["general"]; hb_load := Some f0_1 |} in
  ∃ heard1 heard2 scanned,
    Coordinator.handle_heartbeat 50%float
      (watching_node (peer_entry 50%float "healthy" 0)) "agent-2" heartbeat 98%float
      = (heard1, Ok tt) ∧
    Coordinator.handle_heartbeat 50%float heard1 "agent-2" heartbeat 99%float
      = (heard2, Ok tt) ∧
    Coordinator._check_agent_health demo_cfg 100%float heard2 = (scanned, Ok tt) ∧
    od_get (Coordinator.agent_health scanned) "agent-2"
      = Some (peer_entry 50%float "suspected" 1).
Proof.
  cbv zeta. eexists _, _, _. repeat split; vm_compute; reflexivity.
Qed.

(** The heartbeat route works on the agent table, not on the health table
    the detector scans: a known agent that is FAILED becomes RECOVERING,
    any other status is kept, and no heartbeat makes a RECOVERING agent
    HEALTHY. *)
Lemma handle_heartbeat_status import_time self agent_id info now agent :
  od_get (Coordinator.agents self) agent_id = Some (AgentRec agent) →
  ∃ self' agent',
    Coordinator.handle_heartbeat import_time self agent_id info now = (self', Ok tt) ∧
    od_get (Coordinator.agents self') agent_id = Some (AgentRec agent') ∧
    Agent.status agent' =
      (if decide (Agent.status agent = FAILED) then RECOVERING else Agent.status agent) ∧
    Coordinator.agent_health self' = Coordinator.agent_health self.
Proof.
  intros Hget. unfold Coordinator.handle_heartbeat. rewrite Hget.
  eexists _, _. split; [reflexivity|]. cbn [Coordinator.agents Coordinator.set_agents].
  split; [apply od_get_set_eq|]. done.
Qed.

(** * Further properties of the code *)

(** ** Acceptor state *)

Lemma handle_paxos_message_ids self m :
  acceptor_ok self →
  let s' := fst (Paxos.handle_paxos_message self m) in
  acceptor_ok s' ∧
  Paxos.promised_id self ≤ Paxos.promised_id s' ∧
  Paxos.accepted_id self ≤ Paxos.accepted_id s' ∧
  Paxos.node_id s' = Paxos.node_id self ∧
  Paxos.cluster_nodes s' = Paxos.cluster_nodes self ∧
  Paxos.proposal_id s' = Paxos.proposal_id self.
Proof.
  unfold acceptor_ok, Paxos.handle_paxos_message, Paxos._handle_prepare,
    Paxos._handle_accept. intros Hok.
  destruct (Message.msg_type m); cbn; try (repeat split; lia).
  - destruct (Z.gtb_spec (Message.proposal_id m) (Paxos.promised_id self));
      cbn; repeat split; lia.
  - destruct (Z.geb_spec (Message.proposal_id m) (Paxos.promised_id self));
      cbn; repeat split; lia.
Qed.

(** X1. Whatever messages an acceptor handles, in whatever order, its
    promised id and its accepted id never decrease, the accepted id stays
    at most the promised id, and its identity, its cluster list and its own
    proposal counter are not touched. *)
Theorem acceptor_ids_never_decrease self msgs :
  acceptor_ok self →
  acceptor_ok (receive_all self msgs) ∧
  Paxos.promised_id self ≤ Paxos.promised_id (receive_all self msgs) ∧
  Paxos.accepted_id self ≤ Paxos.accepted_id (receive_all self msgs) ∧
  Paxos.node_id (receive_all self msgs) = Paxos.node_id self ∧
  Paxos.cluster_nodes (receive_all self msgs) = Paxos.cluster_nodes self ∧
  Paxos.proposal_id (receive_all self msgs) = Paxos.proposal_id self.
Proof.
  unfold receive_all. revert self. induction msgs as [|m msgs IH]; intros self Hok.
  - cbn. repeat split; (done || lia).
  - cbn [fold_left].
    destruct (handle_paxos_message_ids self m Hok) as (Hok1 & Hp & Ha & Hn & Hc & Hi).
    destruct (IH _ Hok1) as (Hok2 & Hp2 & Ha2 & Hn2 & Hc2 & Hi2).
    repeat split; (lia || congruence).
Qed.

Lemma acceptor_ids_never_decrease_witness :
  let msgs :=
    [Message.make PREPARE 5;
     {| Message.msg_type := ACCEPT; Message.proposal_id := 5;
        Message.value := VStr "agent-a"; Message.promised_id := None;
        Message.accepted_id := None; Message.accepted_value := VNone |};
     Message.make PREPARE 3] in
  let self := Paxos.init "agent-1" ["localhost:5000"] in
  acceptor_ok (receive_all self msgs) ∧
  -1 ≤ Paxos.promised_id (receive_all self msgs) ∧
  -1 ≤ Paxos.accepted_id (receive_all self msgs) ∧
  Paxos.node_id (receive_all self msgs) = "agent-1" ∧
  Paxos.cluster_nodes (receive_all self msgs) = ["localhost:5000"] ∧
  Paxos.proposal_id (receive_all self msgs) = 0.
Proof.
  cbv zeta. apply (acceptor_ids_never_decrease (Paxos.init "agent-1" ["localhost:5000"])).
  unfold acceptor_ok. simpl. lia.
Defined.

(** X2. Only an Accept message changes what an acceptor has accepted: after
    any sequence of messages of the other kinds (prepares included, granted
    or rejected) the accepted id and the accepted value are the ones before. *)
Theorem accepted_pair_survives_other_messages self msgs :
  Forall (fun m => Message.msg_type m ≠ ACCEPT) msgs →
  Paxos.accepted_id (receive_all self msgs) = Paxos.accepted_id self ∧
  Paxos.accepted_value (receive_all self msgs) = Paxos.accepted_value self.
Proof.
  unfold receive_all. intros Hall. revert self.
  induction Hall as [|m msgs Hm _ IH]; intros self; [done|].
  cbn [fold_left]. destruct (IH (fst (Paxos.handle_paxos_message self m))) as [-> ->].
  unfold Paxos.handle_paxos_message, Paxos._handle_prepare.
  destruct (Message.msg_type m); try done.
  by destruct (_ >? _).
Qed.

Lemma accepted_pair_survives_other_messages_witness :
  let self := Paxos.set_accepted (Paxos.init "agent-1" ["localhost:5000"]) 7 (VStr "agent-a") in
  let msgs := [Message.make PREPARE 9; Message.make PREPARE 2; Message.make STATE_SYNC 0] in
  Paxos.accepted_id (receive_all self msgs) = 7 ∧
  Paxos.accepted_value (receive_all self msgs) = VStr "agent-a".
Proof.
  cbv zeta.
  apply (accepted_pair_survives_other_messages
           (Paxos.set_accepted (Paxos.init "agent-1" ["localhost:5000"]) 7 (VStr "agent-a"))).
  repeat constructor; simpl; discriminate.
Defined.

(** ** The proposer's choice of a value *)

(** X3. The loop of [propose_value] over the promises raises, with
    [TypeError], exactly when one of the collected promises is a rejection
    (a promise without an accepted id). *)
Theorem choose_value_raises_iff_rejection value promises chosen max_id :
  (∃ p, p ∈ promises ∧ Message.accepted_id p = None) ↔
  Paxos.choose_value value promises chosen max_id = Raise TypeError.
Proof.
  revert chosen max_id. induction promises as [|p ps IH]; intros chosen max_id; simpl.
  - split; [intros (p & Hin & _); by apply elem_of_nil in Hin|done].
  - destruct (Message.accepted_id p) as [a|] eqn:Ha.
    + destruct (a >? max_id); rewrite <- IH; split.
      all: try (intros (q & Hin & Hq); apply elem_of_cons in Hin as [->|Hin];
                [congruence|eauto]).
      all: intros (q & Hin & Hq); exists q; split; [by right|done].
    + split; [done|]. intros _. exists p. split; [by left|done].
Qed.

(** X4. When the loop over the promises returns, it returns either the value
    it started with or the accepted value of a promise ([or]-ed with the
    caller's value) whose accepted id is above the starting bound and is the
    highest accepted id of all the promises. *)
Theorem choose_value_takes_highest_accepted value promises chosen max_id v :
  Paxos.choose_value value promises chosen max_id = Ok v →
  (v = chosen ∧ ∀ q b, q ∈ promises → Message.accepted_id q = Some b → b ≤ max_id) ∨
  (∃ p a, p ∈ promises ∧ Message.accepted_id p = Some a ∧ max_id < a ∧
          v = py_or (Message.accepted_value p) value ∧
          ∀ q b, q ∈ promises → Message.accepted_id q = Some b → b ≤ a).
Proof.
  revert chosen max_id. induction promises as [|p ps IH]; intros chosen max_id; simpl.
  - intros [= <-]. left. split; [done|]. intros q b Hin. by apply elem_of_nil in Hin.
  - destruct (Message.accepted_id p) as [a|] eqn:Ha; [|done].
    destruct (Z.gtb_spec a max_id) as [Hgt|Hle]; intros Hv;
      destruct (IH _ _ Hv) as [[-> Hall]|(p' & a' & Hin & Ha' & Hlt & -> & Hall)].
    + right. exists p, a. split; [by left|]. split; [done|]. split; [lia|].
      split; [done|]. intros q b Hq Hb. apply elem_of_cons in Hq as [->|Hq].
      * rewrite Ha in Hb. injection Hb as <-. lia.
      * eauto.
    + right. exists p', a'. split; [by right|]. split; [done|]. split; [lia|].
      split; [done|]. intros q b Hq Hb. apply elem_of_cons in Hq as [->|Hq].
      * rewrite Ha in Hb. injection Hb as <-. lia.
      * eauto.
    + left. split; [done|]. intros q b Hq Hb. apply elem_of_cons in Hq as [->|Hq].
      * rewrite Ha in Hb. injection Hb as <-. lia.
      * eauto.
    + right. exists p', a'. split; [by right|]. split; [done|]. split; [done|].
      split; [done|]. intros q b Hq Hb. apply elem_of_cons in Hq as [->|Hq].
      * rewrite Ha in Hb. injection Hb as <-. lia.
      * eauto.
Qed.

Lemma choose_value_takes_highest_accepted_witness :
  let promise a v :=
    {| Message.msg_type := PROMISE; Message.proposal_id := 9;
       Message.value := VNone; Message.promised_id := Some 9;
       Message.accepted_id := Some a; Message.accepted_value := v |} in
  let promises := [promise 3 (VStr "agent-a"); promise 7 (VStr "agent-b"); promise (-1) VNone] in
  (VStr "agent-b" = VStr "mine" ∧
   ∀ q b, q ∈ promises → Message.accepted_id q = Some b → b ≤ -1) ∨
  (∃ p a, p ∈ promises ∧ Message.accepted_id p = Some a ∧ -1 < a ∧
          VStr "agent-b" = py_or (Message.accepted_value p) (VStr "mine") ∧
          ∀ q b, q ∈ promises → Message.accepted_id q = Some b → b ≤ a).
Proof.
  cbv zeta.
  apply (choose_value_takes_highest_accepted (VStr "mine") _ (VStr "mine") (-1)).
  reflexivity.
Defined.

(** ** Rounds of messages *)

Lemma handle_paxos_message_cluster self m :
  Paxos.cluster_nodes (fst (Paxos.handle_paxos_message self m))
    = Paxos.cluster_nodes self.
Proof.
  unfold Paxos.handle_paxos_message, Paxos._handle_prepare, Paxos._handle_accept.
  destruct (Message.msg_type m); try done.
  - by destruct (_ >? _).
  - by destruct (_ >=? _).
Qed.

Lemma _send_message_frame cfg up node message w :
  let w' := fst (Paxos._send_message cfg up node message w) in
  (∀ a, a ≠ node → snd w' !! a = snd w !! a) ∧
  (node ≠ FLASK_ADDR cfg → fst w' = fst w) ∧
  (node ≠ FLASK_ADDR cfg → up node = false → w' = w) ∧
  Paxos.cluster_nodes (fst w') = Paxos.cluster_nodes (fst w).
Proof.
  destruct w as [self peers]. unfold Paxos._send_message.
  destruct (decide (node = FLASK_ADDR cfg)) as [->|Hne].
  - pose proof (handle_paxos_message_cluster self message) as Hc.
    destruct (Paxos.handle_paxos_message self message) as [self' r]. cbn in *.
    repeat split; (done || congruence).
  - destruct (up node).
    + destruct (peers !! node) as [p|] eqn:Hp; [|done].
      destruct (Paxos.handle_paxos_message p message) as [p' r]. cbn.
      repeat split; try done. intros a Ha. by rewrite lookup_insert_ne.
    + done.
Qed.

(** X5. A round of [_send_prepare] or [_send_accept] returns at most one
    reply per cluster node, every reply it returns has the type it keeps,
    and it changes no coordinator outside the cluster list: a peer at any
    other address is untouched, and so is the proposer's own acceptor when
    its address is not in the list. *)
Theorem fan_out_replies_and_frame cfg up keep message nodes w :
  let '(w', replies) := Paxos.fan_out cfg up keep message nodes w in
  (length replies ≤ length nodes)%nat ∧
  Forall (fun r => Message.msg_type r = keep) replies ∧
  (∀ a, a ∉ nodes → snd w' !! a = snd w !! a) ∧
  (FLASK_ADDR cfg ∉ nodes → fst w' = fst w).
Proof.
  revert w. induction nodes as [|node rest IH]; intros w; simpl.
  - repeat split; (done || constructor).
  - pose proof (_send_message_frame cfg up node message w) as (Hp & Hs & _ & _).
    destruct (Paxos._send_message cfg up node message w) as [w1 response].
    specialize (IH w1). destruct (Paxos.fan_out cfg up keep message rest w1) as [w2 more].
    destruct IH as (Hlen & Hall & Hp2 & Hs2). cbn [fst snd] in *.
    assert (Hframe : (∀ a, a ∉ node :: rest → snd w2 !! a = snd w !! a) ∧
                     (FLASK_ADDR cfg ∉ node :: rest → fst w2 = fst w)).
    { split.
      - intros a Ha. apply not_elem_of_cons in Ha as [Hne Hrest].
        rewrite Hp2 by done. by apply Hp.
      - intros Ha. apply not_elem_of_cons in Ha as [Hne Hrest].
        rewrite Hs2 by done. apply Hs. congruence. }
    destruct response as [r|]; [destruct (decide (Message.msg_type r = keep))|];
      (split; [simpl; lia|]); (split; [by repeat constructor|done]).
Qed.

Lemma fan_out_all_down cfg keep message nodes w :
  FLASK_ADDR cfg ∉ nodes →
  Paxos.fan_out cfg (fun _ => false) keep message nodes w = (w, []).
Proof.
  revert w. induction nodes as [|node rest IH]; intros w Hnot; [done|].
  apply not_elem_of_cons in Hnot as [Hne Hrest]. simpl.
  destruct w as [self peers]. unfold Paxos._send_message.
  rewrite decide_False by congruence. by rewrite IH.
Qed.

(** X6. When no node of the cluster answers (every round trip fails and the
    process is not in its own cluster list), [propose_value] returns failure
    and leaves every acceptor as it was; only the proposer's id counter has
    moved. *)
Theorem propose_value_without_replies py_hash cfg ms value self peers :
  Paxos.cluster_nodes self ≠ [] →
  FLASK_ADDR cfg ∉ Paxos.cluster_nodes self →
  Paxos.propose_value py_hash cfg (fun _ => false) ms value (self, peers)
    = ((Paxos.set_proposal_id self (proposal_id_at py_hash ms self), peers),
       Ok (false, VNone)).
Proof.
  intros Hne Hnot. unfold Paxos.propose_value, Paxos.propose_prepare.
  rewrite generate_proposal_id_value by done.
  unfold Paxos._send_prepare. cbn [fst Paxos.cluster_nodes Paxos.set_proposal_id].
  rewrite fan_out_all_down by done.
  unfold Paxos.propose_resume.
  assert (H : (Z.of_nat (length (@nil PaxosMessage)) <? PAXOS_MAJORITY_SIZE cfg) = true).
  { apply Z.ltb_lt. unfold PAXOS_MAJORITY_SIZE.
    pose proof (Z.div_pos (Z.of_nat (length (CLUSTER_NODES cfg))) 2). simpl. lia. }
  by rewrite H.
Qed.

Lemma propose_value_without_replies_witness :
  Paxos.propose_value (fun _ => 1) demo_cfg (fun _ => false) 1000 (VStr "agent-a")
    (Paxos.init "agent-1" ["peer-a:5000"; "peer-b:5000"; "peer-c:5000"], ∅)
  = ((Paxos.set_proposal_id
        (Paxos.init "agent-1" ["peer-a:5000"; "peer-b:5000"; "peer-c:5000"]) 3001, ∅),
     Ok (false, VNone)).
Proof.
  apply (propose_value_without_replies (fun _ => 1) demo_cfg 1000 (VStr "agent-a")
           (Paxos.init "agent-1" ["peer-a:5000"; "peer-b:5000"; "peer-c:5000"]) ∅).
  - simpl. discriminate.
  - simpl. rewrite !not_elem_of_cons. repeat split; try discriminate. apply not_elem_of_nil.
Defined.

Lemma generate_proposal_id_alone py_hash ms self node :
  Paxos.cluster_nodes self = [node] →
  Paxos.generate_proposal_id py_hash ms self = (Paxos.set_proposal_id self ms, Ok ms).
Proof.
  intros Hc. unfold Paxos.generate_proposal_id. rewrite Hc. simpl.
  by rewrite Z.mod_1_r, Z.mul_1_r, Z.add_0_r.
Qed.

Lemma _send_prepare_alone cfg up n self peers :
  Paxos.cluster_nodes self = [FLASK_ADDR cfg] →
  Paxos.promised_id self < n →
  Paxos._send_prepare cfg up n (self, peers)
    = ((Paxos.set_promised_id self n, peers),
       [{| Message.msg_type := PROMISE; Message.proposal_id := n;
           Message.value := VNone; Message.promised_id := Some n;
           Message.accepted_id := Some (Paxos.accepted_id self);
           Message.accepted_value := Paxos.accepted_value self |}]).
Proof.
  intros Hc Hlt. unfold Paxos._send_prepare. cbn [fst]. rewrite Hc.
  cbn [Paxos.fan_out]. unfold Paxos._send_message. rewrite decide_True by done.
  unfold Paxos.handle_paxos_message, Paxos._handle_prepare.
  cbn [Message.msg_type Message.proposal_id Message.make].
  rewrite (proj2 (Z.gtb_lt n (Paxos.promised_id self))) by lia.
  cbn [Message.msg_type]. by rewrite decide_True.
Qed.

Lemma _send_accept_alone cfg up n v self peers :
  Paxos.cluster_nodes self = [FLASK_ADDR cfg] →
  Paxos.promised_id self ≤ n →
  Paxos._send_accept cfg up n v (self, peers)
    = ((Paxos.set_accepted self n v, peers), [Message.make ACCEPTED n]).
Proof.
  intros Hc Hle. unfold Paxos._send_accept. cbn [fst]. rewrite Hc.
  cbn [Paxos.fan_out]. unfold Paxos._send_message. rewrite decide_True by done.
  unfold Paxos.handle_paxos_message, Paxos._handle_accept.
  cbn [Message.msg_type Message.proposal_id Message.value].
  rewrite (proj2 (Z.geb_le n (Paxos.promised_id self))) by lia.
  cbn [Message.msg_type Message.make]. by rewrite decide_True.
Qed.

Lemma propose_value_alone py_hash cfg up ms value self peers :
  alone cfg self →
  Paxos.promised_id self < ms →
  let chosen :=
    if Paxos.accepted_id self >? -1 then py_or (Paxos.accepted_value self) value
    else value in
  Paxos.propose_value py_hash cfg up ms value (self, peers)
    = ((Paxos.set_accepted (Paxos.set_proposal_id self ms) ms chosen, peers),
       Ok (true, chosen)).
Proof.
  intros [Hcfg Hself] Hlt. cbv zeta.
  unfold Paxos.propose_value, Paxos.propose_prepare.
  rewrite (generate_proposal_id_alone _ _ _ _ Hself).
  rewrite _send_prepare_alone by done.
  unfold Paxos.propose_resume, PAXOS_MAJORITY_SIZE. rewrite Hcfg.
  change (Z.of_nat (length [FLASK_ADDR cfg]) / 2 + 1) with 1.
  cbn [length Paxos.choose_value Message.accepted_id Message.accepted_value].
  change (Z.of_nat 1 <? 1) with false. cbn iota.
  change (Paxos.accepted_id (Paxos.set_proposal_id self ms)) with (Paxos.accepted_id self).
  change (Paxos.accepted_value (Paxos.set_proposal_id self ms))
    with (Paxos.accepted_value self).
  destruct (Paxos.accepted_id self >? -1).
  all: rewrite _send_accept_alone by (done || (simpl; lia)).
  all: cbn [length]; change (Z.of_nat 1 <? 1) with false; reflexivity.
Qed.

(** X7. On a one-node cluster whose member is the process itself, a
    [propose_value] call that runs alone with a clock reading above the
    acceptor's promised id succeeds. It decides the value already accepted
    (when one was accepted under an id above -1 and is truthy) and the
    caller's value otherwise, and leaves the acceptor with that value
    accepted under the new id. *)
Theorem propose_value_alone_succeeds py_hash cfg up ms value self peers :
  alone cfg self →
  Paxos.promised_id self < ms →
  let chosen :=
    if Paxos.accepted_id self >? -1 then py_or (Paxos.accepted_value self) value
    else value in
  Paxos.propose_value py_hash cfg up ms value (self, peers)
    = ((Paxos.set_accepted (Paxos.set_proposal_id self ms) ms chosen, peers),
       Ok (true, chosen)).
Proof.
  intros [Hcfg Hself] Hlt. cbv zeta.
  unfold Paxos.propose_value, Paxos.propose_prepare.
  rewrite (generate_proposal_id_alone _ _ _ _ Hself).
  rewrite _send_prepare_alone by done.
  unfold Paxos.propose_resume, PAXOS_MAJORITY_SIZE. rewrite Hcfg.
  change (Z.of_nat (length [FLASK_ADDR cfg]) / 2 + 1) with 1.
  cbn [length Paxos.choose_value Message.accepted_id Message.accepted_value].
  change (Z.of_nat 1 <? 1) with false. cbn iota.
  change (Paxos.accepted_id (Paxos.set_proposal_id self ms)) with (Paxos.accepted_id self).
  change (Paxos.accepted_value (Paxos.set_proposal_id self ms))
    with (Paxos.accepted_value self).
  destruct (Paxos.accepted_id self >? -1).
  all: rewrite _send_accept_alone by (done || (simpl; lia)).
  all: cbn [length]; change (Z.of_nat 1 <? 1) with false; reflexivity.
Qed.

Lemma propose_value_alone_succeeds_witness :
  Paxos.propose_value (fun _ => 5) demo_cfg all_up 2000 (VStr "agent-1")
    (Coordinator.paxos busy_node, ∅)
  = ((Paxos.set_accepted (Paxos.set_proposal_id (Coordinator.paxos busy_node) 2000)
        2000 (VStr "agent-b"), ∅),
     Ok (true, VStr "agent-b")).
Proof.
  apply (propose_value_alone_succeeds (fun _ => 5) demo_cfg all_up 2000 (VStr "agent-1")
           (Coordinator.paxos busy_node) ∅).
  - split; reflexivity.
  - simpl. lia.
Defined.

(** X8. On such a one-node cluster a decided truthy value stays decided:
    when a first call run alone decides the caller's value [v1] and [v1] is
    truthy, every later call run alone with a later clock reading decides
    [v1] again, whatever it proposes. *)
Theorem propose_value_alone_keeps_decision py_hash cfg up ms1 ms2 v1 v2 self peers :
  alone cfg self →
  -1 ≤ Paxos.promised_id self → Paxos.accepted_id self ≤ -1 →
  Paxos.promised_id self < ms1 → ms1 < ms2 →
  truthy v1 = true →
  ∃ w1 w2,
    Paxos.propose_value py_hash cfg up ms1 v1 (self, peers) = (w1, Ok (true, v1)) ∧
    Paxos.propose_value py_hash cfg up ms2 v2 w1 = (w2, Ok (true, v1)).
Proof.
  intros Halone Hp Ha Hlt1 Hlt2 Hv1.
  pose proof (propose_value_alone py_hash cfg up ms1 v1 self peers
                Halone Hlt1) as H1. cbv zeta in H1.
  rewrite Z.gtb_ltb in H1.
  rewrite (proj2 (Z.ltb_ge (-1) (Paxos.accepted_id self))) in H1 by lia.
  eexists _, _. split; [exact H1|].
  pose proof (propose_value_alone py_hash cfg up ms2 v2
                (Paxos.set_accepted (Paxos.set_proposal_id self ms1) ms1 v1) peers) as H2.
  cbv zeta in H2. cbn [Paxos.accepted_id Paxos.accepted_value Paxos.promised_id
                       Paxos.set_accepted] in H2.
  rewrite (proj2 (Z.gtb_lt ms1 (-1))) in H2 by lia.
  unfold py_or in H2. rewrite Hv1 in H2. apply H2; [|lia].
  destruct Halone as [Hc Hs]. split; [done|]. exact Hs.
Qed.

Lemma propose_value_alone_keeps_decision_witness :
  ∃ w1 w2,
    Paxos.propose_value (fun _ => 5) demo_cfg all_up 1000 (VStr "agent-a") demo_world
      = (w1, Ok (true, VStr "agent-a")) ∧
    Paxos.propose_value (fun _ => 5) demo_cfg all_up 1001 (VStr "agent-b") w1
      = (w2, Ok (true, VStr "agent-a")).
Proof.
  apply (propose_value_alone_keeps_decision (fun _ => 5) demo_cfg all_up 1000 1001
           (VStr "agent-a") (VStr "agent-b") (Paxos.init "agent-1" ["localhost:5000"]) ∅).
  - split; reflexivity.
  - simpl. lia.
  - simpl. lia.
  - simpl. lia.
  - lia.
  - reflexivity.
Defined.

(** ** Proposal ids and the quorum size *)

(** X9. An issued id encodes the clock reading and the node's tie-breaker:
    its quotient by the cluster size is the millisecond reading and its
    remainder is [hash(node_id)] modulo the cluster size. Two nodes of equal
    cluster size whose tie-breakers differ therefore never issue the same
    id, whatever their clocks read. *)
Theorem generate_proposal_id_decodes py_hash ms self self' id :
  Paxos.generate_proposal_id py_hash ms self = (self', Ok id) →
  let n := Z.of_nat (length (Paxos.cluster_nodes self)) in
  id / n = ms ∧ id mod n = py_hash (Paxos.node_id self) mod n ∧
  Paxos.proposal_id self' = id ∧
  ∀ py_hash2 ms2 other other' id2,
    Paxos.generate_proposal_id py_hash2 ms2 other = (other', Ok id2) →
    length (Paxos.cluster_nodes other) = length (Paxos.cluster_nodes self) →
    py_hash2 (Paxos.node_id other) mod n ≠ py_hash (Paxos.node_id self) mod n →
    id2 ≠ id.
Proof.
  unfold Paxos.generate_proposal_id. cbv zeta.
  set (n := Z.of_nat (length (Paxos.cluster_nodes self))).
  destruct (Z.eqb_spec n 0) as [|Hn]; [done|]. intros [= <- <-].
  assert (0 < n) by lia.
  pose proof (Z.mod_pos_bound (py_hash (Paxos.node_id self)) n ltac:(lia)) as Hb.
  assert (Hmod : (ms * n + py_hash (Paxos.node_id self) mod n) mod n
                 = py_hash (Paxos.node_id self) mod n).
  { rewrite Z.add_comm, Z.mod_add by lia. apply Z.mod_mod. lia. }
  split; [|split; [done|split; [done|]]].
  - rewrite Z.add_comm, Z.div_add by lia. rewrite Z.div_small by lia. lia.
  - intros py_hash2 ms2 other other' id2 Hgen Hlen Hres.
    rewrite Hlen in Hgen. fold n in Hgen.
    destruct (Z.eqb_spec n 0); [done|]. injection Hgen as _ <-.
    intros Heq. apply Hres. rewrite <- Hmod, <- Heq.
    rewrite Z.add_comm, Z.mod_add by lia. symmetry. apply Z.mod_mod. lia.
Qed.

Lemma generate_proposal_id_decodes_witness :
  let self := Paxos.init "agent-1" ["a:1"; "b:1"; "c:1"] in
  3001 / 3 = 1000 ∧ 3001 mod 3 = 7 mod 3 ∧
  Paxos.proposal_id (Paxos.set_proposal_id self 3001) = 3001 ∧
  ∀ py_hash2 ms2 other other' id2,
    Paxos.generate_proposal_id py_hash2 ms2 other = (other', Ok id2) →
    length (Paxos.cluster_nodes other) = 3%nat →
    py_hash2 (Paxos.node_id other) mod 3 ≠ 7 mod 3 →
    id2 ≠ 3001.
Proof.
  cbv zeta.
  apply (generate_proposal_id_decodes (fun _ => 7) 1000
           (Paxos.init "agent-1" ["a:1"; "b:1"; "c:1"])).
  reflexivity.
Defined.

(** [generate_proposal_id] raises, with [ZeroDivisionError], exactly
    when the coordinator was built with an empty cluster list; it then
    leaves the coordinator as it was. *)
Lemma generate_proposal_id_raises_iff_no_nodes py_hash ms self :
  (Paxos.cluster_nodes self = [] ↔
   Paxos.generate_proposal_id py_hash ms self = (self, Raise ZeroDivisionError)) ∧
  (Paxos.cluster_nodes self ≠ [] ↔
   ∃ id, Paxos.generate_proposal_id py_hash ms self
         = (Paxos.set_proposal_id self id, Ok id)).
Proof.
  unfold Paxos.generate_proposal_id.
  destruct (Paxos.cluster_nodes self) as [|n ns]; simpl.
  - split; [done|]. split; [done|]. intros [id Hid]. discriminate.
  - split; [split; discriminate|]. split; [eauto|done].
Qed.

(** X11. The quorum size of config.py is a strict majority of the configured
    cluster: twice the quorum exceeds the number of nodes (two quorums share
    a node), and a non-empty cluster can reach it. *)
Theorem PAXOS_MAJORITY_SIZE_is_majority cfg :
  let n := Z.of_nat (length (CLUSTER_NODES cfg)) in
  n < 2 * PAXOS_MAJORITY_SIZE cfg ∧
  2 * PAXOS_MAJORITY_SIZE cfg ≤ n + 2 ∧
  1 ≤ PAXOS_MAJORITY_SIZE cfg ∧
  (1 ≤ n → PAXOS_MAJORITY_SIZE cfg ≤ n).
Proof.
  unfold PAXOS_MAJORITY_SIZE. cbv zeta.
  set (n := Z.of_nat (length (CLUSTER_NODES cfg))).
  assert (0 ≤ n) by lia.
  pose proof (Z.div_mod n 2 ltac:(lia)). pose proof (Z.mod_pos_bound n 2 ltac:(lia)).
  repeat split; lia.
Qed.

(** ** Classification *)

Lemma append_cons a s t : String.append (String a s) t = String a (String.append s t).
Proof. reflexivity. Qed.

Lemma append_empty t : String.append "" t = t.
Proof. reflexivity. Qed.

Lemma starts_with_spec w s :
  starts_with w s = true ↔ ∃ post, s = String.append w post.
Proof.
  revert s. induction w as [|a w IH]; intros s; cbn [starts_with].
  - split; [intros _; exists s; by rewrite append_empty|done].
  - destruct s as [|b s].
    { split; [done|]. intros [post H]. rewrite append_cons in H. discriminate. }
    destruct (decide (a = b)) as [->|Hne].
    + rewrite IH. split; intros [post H]; exists post.
      * rewrite append_cons. congruence.
      * rewrite append_cons in H. congruence.
    + split; [done|]. intros [post H]. rewrite append_cons in H. congruence.
Qed.

Lemma contains_spec w s : contains w s = true ↔ occurs_in w s.
Proof.
  unfold occurs_in. induction s as [|b s IH].
  - cbn [contains]. rewrite orb_false_r, starts_with_spec. split.
    + intros [post H]. exists "", post. by rewrite append_empty.
    + intros (pre & post & H). destruct pre.
      * rewrite append_empty in H. eauto.
      * rewrite append_cons in H. discriminate.
  - cbn [contains]. rewrite orb_true_iff, starts_with_spec, IH. split.
    + intros [[post H]|(pre & post & H)].
      * exists "", post. by rewrite append_empty.
      * exists (String b pre), post. rewrite append_cons. by rewrite H.
    + intros (pre & post & H). destruct pre as [|c pre].
      * rewrite append_empty in H. left. eauto.
      * rewrite append_cons in H. right. exists pre, post. congruence.
Qed.

Lemma existsb_contains words s :
  existsb (fun word => contains word s) words = true ↔
  ∃ w, w ∈ words ∧ occurs_in w s.
Proof.
  rewrite existsb_exists. split; intros (w & Hin & Hc); exists w.
  - split; [by apply list_elem_of_In|by apply contains_spec].
  - split; [by apply list_elem_of_In|by apply contains_spec].
Qed.

(** X12. [_classify_email] looks for its keywords as substrings of the
    lower-cased content and ignores the sender: the tag is [support] exactly
    when a support keyword occurs, [sales] exactly when no support keyword
    but a sales keyword occurs, and [general] in every other case. *)
Theorem _classify_email_by_keyword content sender :
  (Coordinator._classify_email content sender = "support" ↔
     ∃ w, w ∈ support_words ∧ occurs_in w (lower content)) ∧
  (Coordinator._classify_email content sender = "sales" ↔
     (¬ ∃ w, w ∈ support_words ∧ occurs_in w (lower content)) ∧
     ∃ w, w ∈ sales_words ∧ occurs_in w (lower content)) ∧
  (Coordinator._classify_email content sender = "general" ↔
     ¬ ∃ w, (w ∈ support_words ∨ w ∈ sales_words) ∧ occurs_in w (lower content)).
Proof.
  unfold Coordinator._classify_email.
  fold support_words. fold sales_words.
  pose proof (existsb_contains support_words (lower content)) as Hs.
  pose proof (existsb_contains sales_words (lower content)) as Hp.
  destruct (existsb _ support_words) eqn:Es.
  - assert (Hex : ∃ w, w ∈ support_words ∧ occurs_in w (lower content)) by by apply Hs.
    split; [done|]. split.
    + split; [done|]. by intros [Hn _].
    + split; [done|]. intros Hn. exfalso. apply Hn.
      destruct Hex as (w & Hin & Ho). exists w. auto.
  - assert (Hno : ¬ ∃ w, w ∈ support_words ∧ occurs_in w (lower content)).
    { intros Hex. apply Hs in Hex. discriminate. }
    destruct (existsb _ sales_words) eqn:Ep.
    + assert (Hex : ∃ w, w ∈ sales_words ∧ occurs_in w (lower content)) by by apply Hp.
      split; [split; [done|by intros ?]|]. split; [done|].
      split; [done|]. intros Hn. exfalso. apply Hn.
      destruct Hex as (w & Hin & Ho). exists w. auto.
    + assert (Hno' : ¬ ∃ w, w ∈ sales_words ∧ occurs_in w (lower content)).
      { intros Hex. apply Hp in Hex. discriminate. }
      split; [split; [done|by intros ?]|]. split; [split; [done|by intros [_ ?]]|].
      split; [|done]. intros _ (w & [Hin|Hin] & Ho); [apply Hno|apply Hno']; eauto.
Qed.

(** ** Candidates and their selection *)

(** X13. The candidates for a specialization are the agents listed under
    it, in list order, that have a health entry whose status is healthy; an
    agent without a health entry is never a candidate, a specialization
    without a list has no candidates, and a key that holds an [AgentInfo]
    makes the lookup raise. *)
Theorem _get_available_agents_are_healthy self specialization :
  match od_get (Coordinator.agents self) specialization with
  | None => Coordinator._get_available_agents self specialization = Ok []
  | Some (AgentRec _) =>
      Coordinator._get_available_agents self specialization = Raise TypeError
  | Some (AgentIds ids) =>
      ∃ l, Coordinator._get_available_agents self specialization = Ok l ∧
           l `sublist_of` ids ∧
           ∀ a, a ∈ l ↔
             a ∈ ids ∧
             ∃ h, od_get (Coordinator.agent_health self) a = Some h ∧
                  Health.status h = Some "healthy"
  end.
Proof.
  unfold Coordinator._get_available_agents.
  destruct (od_get (Coordinator.agents self) specialization) as [[ids|a]|];
    [|done|done].
  eexists. split; [done|]. split.
  - induction ids as [|x ids IH]; simpl; [done|].
    destruct (Coordinator.is_healthy self x); by constructor.
  - intros a. rewrite list_elem_of_In, filter_In, <- list_elem_of_In.
    unfold Coordinator.is_healthy.
    destruct (od_get (Coordinator.agent_health self) a) as [h|].
    + rewrite bool_decide_eq_true. split.
      * intros [Hin Hs]. eauto.
      * intros (Hin & h' & [= <-] & Hs). done.
    + split; [intros [_ ?]; done|]. intros (_ & h & ? & _). done.
Qed.

Lemma SFltb_irrefl x : SFltb x x = false.
Proof.
  unfold SFltb. destruct x as [s|s| |s m e]; simpl; try reflexivity.
  - destruct s; reflexivity.
  - destruct s; rewrite Z.compare_refl;
      change (Pos.compare_cont Eq m m) with (Pos.compare m m);
      rewrite Pos.compare_refl; reflexivity.
Qed.

Lemma SFltb_trans x y z : SFltb x y = true → SFltb y z = true → SFltb x z = true.
Proof.
  unfold SFltb.
  destruct x as [sx|sx| |sx mx ex], y as [sy|sy| |sy my ey], z as [sz|sz| |sz mz ez];
    simpl; try discriminate; try reflexivity;
    repeat match goal with s : bool |- _ => destruct s end; simpl;
    try discriminate; try reflexivity.
  all: change (Pos.compare_cont Eq ?a ?b) with (Pos.compare a b).
  all: destruct (Z.compare_spec ex ey), (Z.compare_spec ey ez), (Z.compare_spec ex ez);
       simpl; try discriminate; try reflexivity; try lia; subst.
  all: destruct (Pos.compare_spec mx my), (Pos.compare_spec my mz),
         (Pos.compare_spec mx mz);
       simpl; try discriminate; try reflexivity; try lia.
Qed.

Lemma ltb_irrefl (x : float) : PrimFloat.ltb x x = false.
Proof. rewrite ltb_spec. apply SFltb_irrefl. Qed.

Lemma ltb_trans (x y z : float) :
  PrimFloat.ltb x y = true → PrimFloat.ltb y z = true → PrimFloat.ltb x z = true.
Proof. rewrite !ltb_spec. apply SFltb_trans. Qed.

Lemma py_min_by_spec key best rest :
  let r := Coordinator.py_min_by key best rest in
  r ∈ best :: rest ∧
  (r = best ∨ PrimFloat.ltb (key r) (key best) = true) ∧
  ∀ x, x ∈ best :: rest → PrimFloat.ltb (key x) (key r) = false.
Proof.
  cbv zeta. revert best. induction rest as [|x rest IH]; intros best; simpl.
  - split; [by left|]. split; [by left|]. intros x Hx.
    apply elem_of_cons in Hx as [->|Hx]; [apply ltb_irrefl|by apply elem_of_nil in Hx].
  - destruct (PrimFloat.ltb (key x) (key best)) eqn:Hlt.
    + destruct (IH x) as (Hin & Hrel & Hmin).
      split; [by right|].
      assert (Hrb : PrimFloat.ltb (key (Coordinator.py_min_by key x rest)) (key best) = true).
      { destruct Hrel as [->|Hrel]; [done|]. by eapply ltb_trans. }
      split; [by right|]. intros y Hy. apply elem_of_cons in Hy as [->|Hy]; [|by apply Hmin].
      destruct (PrimFloat.ltb (key best) (key (Coordinator.py_min_by key x rest)))
        eqn:Hbr; [|done].
      pose proof (ltb_trans _ _ _ Hrb Hbr) as Habs. by rewrite ltb_irrefl in Habs.
    + destruct (IH best) as (Hin & Hrel & Hmin).
      split; [apply elem_of_cons in Hin as [->|Hin]; [by left|by right; right]|].
      split; [done|]. intros y Hy.
      apply elem_of_cons in Hy as [->|Hy]; [apply Hmin; by left|].
      apply elem_of_cons in Hy as [->|Hy]; [|apply Hmin; by right].
      destruct Hrel as [->|Hrel]; [done|].
      destruct (PrimFloat.ltb (key x) (key (Coordinator.py_min_by key best rest)))
        eqn:Hxr; [|done].
      by rewrite (ltb_trans _ _ _ Hxr Hrel) in Hlt.
Qed.

(** X14. [_select_best_agent] returns [None] exactly for an empty candidate
    list; otherwise it returns one of the candidates, and no candidate has a
    load (1.0 when none is stored) strictly below the load of the one it
    returns, in binary64 comparison. *)
Theorem _select_best_agent_least_load self candidates :
  (Coordinator._select_best_agent self candidates = None ↔ candidates = []) ∧
  ∀ best, Coordinator._select_best_agent self candidates = Some best →
    best ∈ candidates ∧
    ∀ c, c ∈ candidates →
      PrimFloat.ltb (Coordinator.load_key self c) (Coordinator.load_key self best) = false.
Proof.
  unfold Coordinator._select_best_agent. destruct candidates as [|c cs].
  - split; [done|]. intros best H. discriminate.
  - split; [split; discriminate|]. intros best [= <-].
    destruct (py_min_by_spec (Coordinator.load_key self) c cs) as (Hin & _ & Hmin).
    split; [done|exact Hmin].
Qed.

(** ** Replica selection and the status report on one agent table *)

Lemma healthy_nodes_ok_iff items :
  (∃ l, Coordinator.healthy_nodes items = Ok l) ↔
  ∀ k e, od_in k e items → ∃ a, e = AgentRec a.
Proof.
  unfold od_in. induction items as [|[k0 [ids0|a0]] items IH]; simpl.
  - split; [intros _ k e []|eauto].
  - split; [intros [l H]; discriminate|].
    intros H. destruct (H k0 (AgentIds ids0)) as [a Ha]; [by left|discriminate].
  - destruct (Coordinator.healthy_nodes items) as [l|e] eqn:Hh.
    + split; [|eauto]. intros _ k e [[= <- <-]|Hin]; [eauto|].
      exact (proj1 IH (ex_intro _ l eq_refl) k e Hin).
    + split; [intros [l H]; discriminate|]. intros H.
      destruct (proj2 IH) as [l Hl]; [|discriminate].
      intros k v Hin. apply (H k v). by right.
Qed.

Lemma healthy_nodes_raises_only_AttributeError items e :
  Coordinator.healthy_nodes items = Raise e → e = AttributeError.
Proof.
  induction items as [|[k0 [ids0|a0]] items IH]; simpl; [done|congruence|].
  destruct (Coordinator.healthy_nodes items); [done|]. intros [= <-]. by apply IH.
Qed.

Lemma healthy_nodes_raise_has_list items e :
  Coordinator.healthy_nodes items = Raise e →
  ∃ k ids, od_in k (AgentIds ids) items.
Proof.
  unfold od_in. revert e. induction items as [|[k0 [ids0|a0]] items IH]; intros e; simpl;
    [done| |].
  - intros _. exists k0, ids0. by left.
  - destruct (Coordinator.healthy_nodes items) as [l|e0]; [done|].
    intros _. destruct (IH e0 eq_refl) as (k & ids & Hin). exists k, ids. by right.
Qed.

Lemma _select_replica_nodes_outcome self count :
  ((∃ l, Coordinator._select_replica_nodes self count = Ok l) ↔
   ∀ k e, od_in k e (Coordinator.agents self) → ∃ a, e = AgentRec a) ∧
  (Coordinator._select_replica_nodes self count = Raise AttributeError ↔
   ∃ k ids, od_in k (AgentIds ids) (Coordinator.agents self)).
Proof.
  unfold Coordinator._select_replica_nodes.
  pose proof (healthy_nodes_ok_iff (Coordinator.agents self)) as Hok.
  destruct (Coordinator.healthy_nodes (Coordinator.agents self)) as [l|e] eqn:Hh.
  - split.
    + split; [intros _; apply Hok; eauto|eauto].
    + split; [done|]. intros (k & ids & Hin).
      destruct (proj1 Hok (ex_intro _ l eq_refl) k _ Hin) as [a Ha]. discriminate.
  - rewrite (healthy_nodes_raises_only_AttributeError _ _ Hh). split.
    + split; [intros [l H]; discriminate|]. intros H.
      destruct (proj2 Hok H) as [l Hl]. discriminate.
    + split; [|done]. intros _. by apply (healthy_nodes_raise_has_list _ _ Hh).
Qed.

(** X15. [_select_replica_nodes] returns exactly when every value of the
    agent table is an [AgentInfo]; as soon as one key holds a list of agent
    ids it raises [AttributeError], whatever the count asked for. *)
Theorem _select_replica_nodes_raises_iff_list self count :
  ((∃ l, Coordinator._select_replica_nodes self count = Ok l) ↔
   ∀ k e, od_in k e (Coordinator.agents self) → ∃ a, e = AgentRec a) ∧
  (Coordinator._select_replica_nodes self count = Raise AttributeError ↔
   ∃ k ids, od_in k (AgentIds ids) (Coordinator.agents self)).
Proof.
  unfold Coordinator._select_replica_nodes.
  pose proof (healthy_nodes_ok_iff (Coordinator.agents self)) as Hok.
  destruct (Coordinator.healthy_nodes (Coordinator.agents self)) as [l|e] eqn:Hh.
  - split.
    + split; [intros _; apply Hok; eauto|eauto].
    + split; [done|]. intros (k & ids & Hin).
      destruct (proj1 Hok (ex_intro _ l eq_refl) k _ Hin) as [a Ha]. discriminate.
  - rewrite (healthy_nodes_raises_only_AttributeError _ _ Hh). split.
    + split; [intros [l H]; discriminate|]. intros H.
      destruct (proj2 Hok H) as [l Hl]. discriminate.
    + split; [|done]. intros _. by apply (healthy_nodes_raise_has_list _ _ Hh).
Qed.

Lemma healthy_nodes_members items l :
  Coordinator.healthy_nodes items = Ok l →
  ∀ n, n ∈ l → ∃ a, od_in n (AgentRec a) items ∧ Agent.status a = HEALTHY.
Proof.
  unfold od_in. revert l. induction items as [|[k0 [ids0|a0]] items IH]; intros l; simpl.
  - intros [= <-] n Hn. by apply elem_of_nil in Hn.
  - done.
  - destruct (Coordinator.healthy_nodes items) as [l0|]; [|done].
    intros [= <-] n Hn. destruct (decide (Agent.status a0 = HEALTHY)) as [Hs|Hs].
    + apply elem_of_cons in Hn as [->|Hn]; [exists a0; split; [by left|done]|].
      destruct (IH _ eq_refl n Hn) as (a & Hin & Ha). exists a. split; [by right|done].
    + destruct (IH _ eq_refl n Hn) as (a & Hin & Ha). exists a. split; [by right|done].
Qed.

(** X16. The list [_select_replica_nodes] returns starts with the node
    itself and does not name it again; every other member is a node of the
    agent table whose [AgentInfo] is HEALTHY. The list has 1 + min(count - 1,
    others) members for a count of at least 1; for a count below 1 the slice
    bound is negative and the list has 1 + max(0, others + count - 1)
    members, which exceeds the count. *)
Theorem _select_replica_nodes_members self count l :
  Coordinator._select_replica_nodes self count = Ok l →
  ∃ healthy tail,
    Coordinator.healthy_nodes (Coordinator.agents self) = Ok healthy ∧
    l = Coordinator.node_id self :: tail ∧
    (Coordinator.node_id self ∉ tail) ∧
    (∀ n, n ∈ tail →
       ∃ a, od_in n (AgentRec a) (Coordinator.agents self) ∧ Agent.status a = HEALTHY) ∧
    let others :=
      Z.of_nat (length (List.filter
        (fun node => negb (bool_decide (node = Coordinator.node_id self))) healthy)) in
    Z.of_nat (length tail) =
      (if 1 <=? count then Z.min (count - 1) others
       else Z.max 0 (others + count - 1)).
Proof.
  unfold Coordinator._select_replica_nodes.
  destruct (Coordinator.healthy_nodes (Coordinator.agents self)) as [healthy|] eqn:Hh;
    [|done].
  intros [= <-]. eexists healthy, _. split; [done|]. split; [done|].
  set (others := List.filter _ healthy).
  assert (Hsub : ∀ n, n ∈ py_slice_to others (count - 1) → n ∈ others).
  { intros n. unfold py_slice_to. destruct (0 <=? count - 1); apply subseteq_take. }
  assert (Hmem : ∀ n, n ∈ others → n ≠ Coordinator.node_id self ∧ n ∈ healthy).
  { intros n Hn. apply list_elem_of_In, filter_In in Hn as [Hin Hne].
    apply negb_true_iff, bool_decide_eq_false in Hne.
    split; [done|by apply list_elem_of_In]. }
  split; [|split].
  - intros Hin. by destruct (Hmem _ (Hsub _ Hin)).
  - intros n Hn. destruct (Hmem _ (Hsub _ Hn)) as [_ Hin].
    by apply (healthy_nodes_members _ _ Hh).
  - cbv zeta. fold others. unfold py_slice_to.
    destruct (Z.leb_spec 0 (count - 1)); destruct (Z.leb_spec 1 count); try lia;
      rewrite length_take; lia.
Qed.

Lemma _select_replica_nodes_members_witness :
  ∃ healthy tail,
    Coordinator.healthy_nodes
      (Coordinator.agents (table_node ["agent-b"; "agent-c"; "agent-d"])) = Ok healthy ∧
    ["agent-1"; "agent-b"; "agent-c"] = "agent-1" :: tail ∧
    ("agent-1" ∉ tail) ∧
    (∀ n, n ∈ tail →
       ∃ a, od_in n (AgentRec a)
              (Coordinator.agents (table_node ["agent-b"; "agent-c"; "agent-d"])) ∧
            Agent.status a = HEALTHY) ∧
    let others :=
      Z.of_nat (length (List.filter
        (fun node => negb (bool_decide (node = "agent-1"))) healthy)) in
    Z.of_nat (length tail) =
      (if 1 <=? 0 then Z.min (0 - 1) others else Z.max 0 (others + 0 - 1)).
Proof.
  apply (_select_replica_nodes_members
           (table_node ["agent-b"; "agent-c"; "agent-d"]) 0).
  reflexivity.
Defined.

Lemma agent_list_lengths_ok_iff items :
  (∃ l, agent_list_lengths items = Ok l) ↔
  ∀ k e, od_in k e items → ∃ ids, e = AgentIds ids.
Proof.
  unfold od_in. induction items as [|[k0 [ids0|a0]] items IH]; simpl.
  - split; [intros _ k e []|eauto].
  - destruct (agent_list_lengths items) as [l|e] eqn:Hl.
    + split; [|eauto]. intros _ k v [[= <- <-]|Hin]; [eauto|].
      exact (proj1 IH (ex_intro _ l eq_refl) k v Hin).
    + split; [intros [l H]; discriminate|]. intros H.
      destruct (proj2 IH) as [l Hl']; [|discriminate].
      intros k v Hin. apply (H k v). by right.
  - split; [intros [l H]; discriminate|].
    intros H. destruct (H k0 (AgentRec a0)) as [ids Hids]; [by left|discriminate].
Qed.

(** X17. [get_system_status] returns exactly when every value of the agent
    table is a list of agent ids. On a non-empty table it therefore returns
    only where [_select_replica_nodes] raises, and raises wherever
    [_select_replica_nodes] returns: no table with an entry serves both. *)
Theorem get_system_status_needs_lists self :
  ((∃ st, get_system_status self = Ok st) ↔
   ∀ k e, od_in k e (Coordinator.agents self) → ∃ ids, e = AgentIds ids) ∧
  (Coordinator.agents self ≠ [] →
   (∃ st, get_system_status self = Ok st) →
   ∀ count, Coordinator._select_replica_nodes self count = Raise AttributeError) ∧
  (Coordinator.agents self ≠ [] →
   ∀ count l, Coordinator._select_replica_nodes self count = Ok l →
   get_system_status self = Raise TypeError).
Proof.
  pose proof (agent_list_lengths_ok_iff (Coordinator.agents self)) as Hlen.
  assert (Hst : (∃ st, get_system_status self = Ok st) ↔
                ∃ l, agent_list_lengths (Coordinator.agents self) = Ok l).
  { unfold get_system_status.
    destruct (agent_list_lengths (Coordinator.agents self)) as [l|e].
    - split; eauto.
    - split; intros [x H]; discriminate. }
  split; [by rewrite Hst|]. split.
  - intros Hne Hok count.
    apply (proj2 (_select_replica_nodes_outcome self count)).
    pose proof (proj1 Hlen (proj1 Hst Hok)) as Hall. clear Hst Hlen Hok.
    destruct (Coordinator.agents self) as [|[k e] items]; [done|].
    destruct (Hall k e) as [ids ->]; [by left|].
    exists k, ids. by left.
  - intros Hne count l Hsel.
    pose proof (proj1 (proj1 (_select_replica_nodes_outcome self count))
                  (ex_intro _ l Hsel)) as Hrec.
    unfold get_system_status. clear Hst Hlen Hsel.
    destruct (Coordinator.agents self) as [|[k e] items]; [done|].
    destruct (Hrec k e) as [a ->]; [by left|]. reflexivity.
Qed.

Lemma get_system_status_needs_lists_witness :
  ((∃ st, get_system_status demo_node = Ok st) ↔
   ∀ k e, od_in k e (Coordinator.agents demo_node) → ∃ ids, e = AgentIds ids) ∧
  (Coordinator.agents demo_node ≠ [] →
   (∃ st, get_system_status demo_node = Ok st) →
   ∀ count, Coordinator._select_replica_nodes demo_node count = Raise AttributeError) ∧
  (Coordinator.agents demo_node ≠ [] →
   ∀ count l, Coordinator._select_replica_nodes demo_node count = Ok l →
   get_system_status demo_node = Raise TypeError).
Proof. apply (get_system_status_needs_lists demo_node). Defined.

(** X18. Right after the constructor the agent table holds the node's own
    [AgentInfo], so [get_system_status] raises [TypeError] for every
    configuration; after [start()] it reports three listed agents, one
    active agent, no conversation and a running node. *)
Theorem get_system_status_around_start cfg import_time now :
  get_system_status (Coordinator.init cfg import_time) = Raise TypeError ∧
  ∃ st,
    get_system_status (Coordinator.start now (Coordinator.init cfg import_time)) = Ok st ∧
    total_agents st = 3 ∧ active_agents st = 1 ∧ total_conversations st = 0 ∧
    agents_by_specialization st = [("support", 1); ("sales", 1); ("general", 1)] ∧
    status_node_id st = NODE_ID cfg ∧ system_health st = "healthy".
Proof.
  split.
  - unfold get_system_status, Coordinator.init, Coordinator._register_self.
    cbn [Coordinator.agents Coordinator.set_agents Coordinator.node_id od_set].
    destruct (decide ("support" = NODE_ID cfg)); [done|].
    destruct (decide ("sales" = NODE_ID cfg)); [done|].
    destruct (decide ("general" = NODE_ID cfg)); done.
  - eexists. split; [reflexivity|]. cbn.
    rewrite (bool_decide_eq_true_2 _ (eq_refl (Some "healthy"))). by repeat split.
Qed.

(** ** Upserts, pushes and what an assignment leaves behind *)

(** X19. An upsert that stores a state pushes exactly that state, in a
    [STATE_SYNC] message with proposal id 0, to every member of the stored
    replica set other than the node itself, and to nobody else. *)
Theorem _update_conversation_state_pushes cfg self thread agent_id ctx now self' pushes :
  Coordinator._update_conversation_state cfg self thread agent_id ctx now
    = (self', Ok pushes) →
  ∃ state,
    od_get (Coordinator.conversations self') thread = Some state ∧
    (∀ n m, (n, m) ∈ pushes →
       n ≠ Coordinator.node_id self ∧ n ∈ replicas state ∧
       Message.msg_type m = STATE_SYNC ∧ Message.proposal_id m = 0 ∧
       Message.value m = VState state) ∧
    (∀ n, n ∈ replicas state → n ≠ Coordinator.node_id self →
       ∃ m, (n, m) ∈ pushes).
Proof.
  unfold Coordinator._update_conversation_state.
  destruct (Coordinator._select_replica_nodes self _) as [replica_nodes|]; [|done].
  intros [= <- <-]. eexists. split; [apply od_get_set_eq|].
  unfold Coordinator._replicate_state.
  cbn [Coordinator.node_id Coordinator.set_conversations replicas].
  split.
  - intros n m Hin. apply list_elem_of_In, in_map_iff in Hin as (n' & [= <- <-] & Hn').
    apply filter_In in Hn' as [Hin Hne].
    apply negb_true_iff, bool_decide_eq_false in Hne.
    split; [done|]. split; [|done].
    apply elem_of_list_to_set. by apply list_elem_of_In.
  - intros n Hn Hne. apply elem_of_list_to_set in Hn. eexists.
    apply list_elem_of_In, in_map_iff. exists n. split; [reflexivity|].
    apply filter_In. split; [by apply list_elem_of_In|].
    apply negb_true_iff, bool_decide_eq_false. done.
Qed.

Lemma _update_conversation_state_pushes_witness :
  ∃ state,
    od_get (Coordinator.conversations
              (fst (Coordinator._update_conversation_state demo_cfg
                      (table_node ["agent-b"]) "t1" (Some "agent-b") [] 101%float)))
      "t1" = Some state ∧
    (∀ n m,
       (n, m) ∈ Coordinator._replicate_state (table_node ["agent-b"])
                  (stored_state demo_cfg (table_node ["agent-b"]) "t1" (Some "agent-b")
                     [] 101%float ["agent-1"; "agent-b"])
                  ["agent-1"; "agent-b"] →
       n ≠ "agent-1" ∧ n ∈ replicas state ∧
       Message.msg_type m = STATE_SYNC ∧ Message.proposal_id m = 0 ∧
       Message.value m = VState state) ∧
    (∀ n, n ∈ replicas state → n ≠ "agent-1" →
       ∃ m, (n, m) ∈ Coordinator._replicate_state (table_node ["agent-b"])
                  (stored_state demo_cfg (table_node ["agent-b"]) "t1" (Some "agent-b")
                     [] 101%float ["agent-1"; "agent-b"])
                  ["agent-1"; "agent-b"]).
Proof.
  apply (_update_conversation_state_pushes demo_cfg (table_node ["agent-b"]) "t1"
           (Some "agent-b") [] 101%float).
  unfold Coordinator._update_conversation_state. simpl. reflexivity.
Defined.

Lemma _update_conversation_state_outside cfg self thread agent_id ctx now :
  let self' := fst (Coordinator._update_conversation_state cfg self thread agent_id ctx now) in
  same_outside_store self self' ∧
  ∀ t, t ≠ thread →
    od_get (Coordinator.conversations self') t = od_get (Coordinator.conversations self) t.
Proof.
  cbv zeta. unfold Coordinator._update_conversation_state, same_outside_store.
  destruct (Coordinator._select_replica_nodes self _); cbn; [|done].
  split; [done|]. intros t Hne. by apply od_get_set_ne.
Qed.

(** X20. Whether it returns or raises, an upsert changes nothing of the node
    but the conversation store, and in the store nothing but the entry of
    its own thread. *)
Theorem _update_conversation_state_frame cfg self thread agent_id ctx now :
  let self' := fst (Coordinator._update_conversation_state cfg self thread agent_id ctx now) in
  same_outside_store self self' ∧
  ∀ t, t ≠ thread →
    od_get (Coordinator.conversations self') t = od_get (Coordinator.conversations self) t.
Proof.
  cbv zeta. unfold Coordinator._update_conversation_state, same_outside_store.
  destruct (Coordinator._select_replica_nodes self _); cbn; [|done].
  split; [done|]. intros t Hne. by apply od_get_set_ne.
Qed.

Lemma assign_agent_for_email_fst cfg self thread email_content sender now :
  fst (Coordinator.assign_agent_for_email cfg self thread email_content sender now) = self.
Proof.
  unfold Coordinator.assign_agent_for_email.
  destruct (Coordinator._get_available_agents self _) as [[|c cs]|e] eqn:Hc;
    [done| |done].
  destruct (candidates_come_from_a_list _ _ _ _ Hc) as [ids Hin].
  by rewrite (_update_conversation_state_raises_on_list cfg self _ _ _ _ _ _ Hin).
Qed.

(** X21. [assign_agent_for_email] never changes the node: when it returns
    there was no candidate and nothing was written, and when there is a
    candidate the upsert raises before anything is stored. *)
Theorem assign_agent_for_email_changes_nothing cfg self thread email_content sender now :
  fst (Coordinator.assign_agent_for_email cfg self thread email_content sender now) = self.
Proof.
  unfold Coordinator.assign_agent_for_email.
  destruct (Coordinator._get_available_agents self _) as [[|c cs]|e] eqn:Hc;
    [done| |done].
  destruct (candidates_come_from_a_list _ _ _ _ Hc) as [ids Hin].
  by rewrite (_update_conversation_state_raises_on_list cfg self _ _ _ _ _ _ Hin).
Qed.

(** X22. A message-sent event for a known thread raises the version of its
    entry by one, stores the handler's first clock reading under the context
    key [last_sent] and its second clock reading in [last_updated], and keeps
    the assigned agent, the thread id and the replica set; other threads and
    the rest of the node are untouched. For an unknown thread the node is
    left as it is. *)
Theorem _handle_message_sent_effect self thread sent_at updated_at :
  let self' := Coordinator._handle_message_sent self thread sent_at updated_at in
  same_outside_store self self' ∧
  (∀ t, t ≠ thread →
     od_get (Coordinator.conversations self') t = od_get (Coordinator.conversations self) t) ∧
  match od_get (Coordinator.conversations self) thread with
  | None => self' = self
  | Some old =>
      ∃ new, od_get (Coordinator.conversations self') thread = Some new ∧
        version new = version old + 1 ∧ last_updated new = updated_at ∧
        od_get (context new) "last_sent" = Some (CFloat sent_at) ∧
        (∀ k, k ≠ "last_sent" → od_get (context new) k = od_get (context old) k) ∧
        assigned_agent new = assigned_agent old ∧ thread_id new = thread_id old ∧
        replicas new = replicas old
  end.
Proof.
  cbv zeta. unfold Coordinator._handle_message_sent, same_outside_store.
  destruct (od_get (Coordinator.conversations self) thread) as [old|] eqn:Hget; cbn.
  - split; [done|]. split; [intros t Hne; by apply od_get_set_ne|].
    eexists. split; [apply od_get_set_eq|]. cbn.
    split; [done|]. split; [done|]. split; [apply od_get_set_eq|].
    split; [intros k Hk; by apply od_get_set_ne|done].
  - done.
Qed.

(** ** Nodes built by the constructor *)

Lemma init_invariant cfg import_time :
  constructor_invariant cfg (Coordinator.init cfg import_time).
Proof.
  unfold constructor_invariant, Coordinator.init, Coordinator._register_self.
  cbn [Coordinator.node_id Coordinator.agents Coordinator.set_agents
       Coordinator.conversations Coordinator.agent_health].
  split; [done|]. split; [|split; [done|by left]].
  destruct (decide ("support" = NODE_ID cfg)) as [Heq|Hne].
  - exists "sales", []. rewrite od_get_set_ne by (rewrite <- Heq; discriminate).
    reflexivity.
  - exists "support", []. by rewrite od_get_set_ne.
Qed.

Lemma invariant_upsert_raises cfg s thread a ctx now :
  constructor_invariant cfg s →
  Coordinator._update_conversation_state cfg s thread a ctx now
    = (s, Raise AttributeError).
Proof.
  intros (_ & (k & ids & Hget) & _ & _).
  apply (_update_conversation_state_raises_on_list cfg s k ids). by apply od_get_In.
Qed.

Lemma invariant_scan cfg s now :
  constructor_invariant cfg s →
  Coordinator._check_agent_health cfg now s = (s, Ok tt).
Proof.
  intros (Hid & _ & _ & [Hh|[h Hh]]); unfold Coordinator._check_agent_health;
    rewrite Hh; cbn [map fst Coordinator.for_each]; [done|].
  unfold Coordinator.check_agent. by rewrite Hid, decide_True.
Qed.

Lemma step_invariant cfg import_time s c :
  constructor_invariant cfg s → constructor_invariant cfg (step cfg import_time s c).
Proof.
  intros Hinv. destruct c; cbn [step].
  - destruct Hinv as (Hid & _ & Hc & Hh).
    unfold constructor_invariant, Coordinator.start, Coordinator._initialize_demo_agents.
    cbn [Coordinator.node_id Coordinator.agents Coordinator.set_agents
         Coordinator.set_running Coordinator.set_agent_health
         Coordinator.conversations Coordinator.agent_health].
    split; [done|]. split; [exists "support", [Coordinator.node_id s]; reflexivity|].
    split; [done|]. right. rewrite Hid.
    destruct Hh as [->|[h ->]]; cbn [od_set]; [eauto|].
    rewrite decide_True by done. eauto.
  - by rewrite assign_agent_for_email_fst.
  - by rewrite invariant_upsert_raises.
  - by rewrite invariant_scan.
  - destruct Hinv as (Hid & (k & ids & Hget) & Hc & Hh).
    unfold Coordinator.handle_heartbeat.
    destruct (od_get (Coordinator.agents s) agent_id) as [[ids0|a0]|] eqn:Hag;
      cbn [fst]; [by repeat split; eauto| |].
    all: unfold constructor_invariant;
      cbn [Coordinator.node_id Coordinator.agents Coordinator.set_agents
           Coordinator.conversations Coordinator.agent_health];
      split; [done|]; split; [|done];
      exists k, ids; rewrite od_get_set_ne; [done|].
    all: intros ->; rewrite Hget in Hag; discriminate.
  - destruct Hinv as (Hid & Hl & Hc & Hh). unfold Coordinator.paxos_route.
    destruct (Paxos.handle_paxos_message _ _). by repeat split.
  - pose proof Hinv as (_ & _ & Hc & _). unfold Coordinator._handle_message_sent.
    by rewrite Hc.
Qed.

Lemma run_invariant cfg import_time calls s :
  constructor_invariant cfg s → constructor_invariant cfg (run cfg import_time s calls).
Proof.
  unfold run. revert s. induction calls as [|c calls IH]; intros s Hinv; [done|].
  cbn [fold_left]. apply IH. by apply step_invariant.
Qed.

(** ** The upsert on the nodes the program builds *)

Lemma invariant_select_raises cfg s count :
  constructor_invariant cfg s →
  Coordinator._select_replica_nodes s count = Raise AttributeError.
Proof.
  intros (_ & (k & ids & Hget) & _ & _). unfold Coordinator._select_replica_nodes.
  by rewrite (healthy_nodes_raises_on_list _ k ids) by by apply od_get_In.
Qed.

(** C5 (the code breaks the claim). On the node as the constructor and
    [start()] leave it, the upsert that [assign_agent_for_email] makes for a
    general message, of a thread that has no entry, raises
    [AttributeError] and assigns no version: the store holds no entry for
    the thread afterwards, where the claim has version 1. The same holds on
    a node built by the constructor after any sequence of calls: every
    upsert raises, and no thread ever holds a version. *)
Theorem upsert_assigns_no_version :
  od_get (Coordinator.conversations demo_node) "t1" = None ∧
  snd (Coordinator._update_conversation_state demo_cfg demo_node "t1"
         (Some "agent-1")
         [("email_content", CStr "hello"); ("sender", CStr "user@example.com");
          ("specialization", CStr "general")] 101%float) = Raise AttributeError ∧
  (version <$>
     od_get (Coordinator.conversations
               (fst (Coordinator._update_conversation_state demo_cfg demo_node "t1"
                       (Some "agent-1")
                       [("email_content", CStr "hello");
                        ("sender", CStr "user@example.com");
                        ("specialization", CStr "general")] 101%float))) "t1")
    = None ∧
  (∀ cfg import_time calls thread agent_id ctx now,
     let node := run cfg import_time (Coordinator.init cfg import_time) calls in
     snd (Coordinator._update_conversation_state cfg node thread agent_id ctx now)
       = Raise AttributeError ∧
     ∀ t, (version <$>
             od_get (Coordinator.conversations
                       (fst (Coordinator._update_conversation_state cfg node thread
                               agent_id ctx now))) t) = None).
Proof.
  split; [reflexivity|].
  assert (Hdemo : constructor_invariant demo_cfg demo_node).
  { apply (run_invariant demo_cfg 50%float [CallStart 100%float]), init_invariant. }
  rewrite (invariant_upsert_raises demo_cfg demo_node _ _ _ _ Hdemo).
  split; [reflexivity|]. split; [reflexivity|].
  intros cfg import_time calls thread agent_id ctx now node.
  pose proof (run_invariant cfg import_time calls _ (init_invariant cfg import_time))
    as Hinv. fold node in Hinv.
  rewrite (invariant_upsert_raises cfg node _ _ _ _ Hinv).
  split; [reflexivity|]. intros t. cbn [fst].
  destruct Hinv as (_ & _ & Hc & _). by rewrite Hc.
Qed.

(** C9 (the code breaks the claim). On the node as the constructor and
    [start()] leave it [_select_replica_nodes] raises [AttributeError]: it
    reads [.status] of every value of the agent table, and the values under
    the specialization names are lists. The upsert that
    [assign_agent_for_email] makes for a general message raises with it and
    stores no state, so there is no replica set that contains the local
    node. The same holds on a node built by the constructor after any
    sequence of calls, for every replication factor. *)
Theorem upsert_stores_no_replica_set :
  Coordinator._select_replica_nodes demo_node (STATE_REPLICATION_FACTOR demo_cfg)
    = Raise AttributeError ∧
  Coordinator._update_conversation_state demo_cfg demo_node "t1" (Some "agent-1")
    [("email_content", CStr "hello"); ("sender", CStr "user@example.com");
     ("specialization", CStr "general")] 101%float
    = (demo_node, Raise AttributeError) ∧
  (replicas <$> od_get (Coordinator.conversations demo_node) "t1") = None ∧
  (∀ cfg import_time calls count,
     Coordinator._select_replica_nodes
       (run cfg import_time (Coordinator.init cfg import_time) calls) count
     = Raise AttributeError).
Proof.
  assert (Hdemo : constructor_invariant demo_cfg demo_node).
  { apply (run_invariant demo_cfg 50%float [CallStart 100%float]), init_invariant. }
  split; [by apply (invariant_select_raises demo_cfg)|].
  split; [by apply invariant_upsert_raises|]. split; [reflexivity|].
  intros cfg import_time calls count.
  apply (invariant_select_raises cfg).
  apply run_invariant, init_invariant.
Qed.

(** X23. On a node built by the constructor the conversation store is never
    written: after any sequence of calls (start, assignments, upserts,
    health scans, heartbeats, Paxos messages, message-sent events) the store
    is empty and every upsert still raises [AttributeError]. *)
Theorem constructed_node_never_stores cfg import_time calls :
  let node := run cfg import_time (Coordinator.init cfg import_time) calls in
  Coordinator.conversations node = [] ∧
  ∀ thread agent_id ctx now,
    Coordinator._update_conversation_state cfg node thread agent_id ctx now
      = (node, Raise AttributeError).
Proof.
  cbv zeta.
  pose proof (run_invariant cfg import_time calls _ (init_invariant cfg import_time))
    as Hinv.
  split; [by destruct Hinv as (_ & _ & Hc & _)|].
  intros. by apply invariant_upsert_raises.
Qed.

(** X24. On a node built by the constructor no peer ever enters the health
    table, whatever heartbeats arrive: after any sequence of calls the table
    holds at most the node's own entry, a health scan changes nothing and
    returns, and the only possible candidate of an assignment is the node
    itself. *)
Theorem constructed_node_tracks_no_peer cfg import_time calls :
  let node := run cfg import_time (Coordinator.init cfg import_time) calls in
  (∀ k h, od_get (Coordinator.agent_health node) k = Some h → k = NODE_ID cfg) ∧
  (∀ now, Coordinator._check_agent_health cfg now node = (node, Ok tt)) ∧
  (∀ specialization l a,
     Coordinator._get_available_agents node specialization = Ok l →
     a ∈ l → a = NODE_ID cfg).
Proof.
  cbv zeta.
  pose proof (run_invariant cfg import_time calls _ (init_invariant cfg import_time))
    as Hinv.
  set (node := run cfg import_time (Coordinator.init cfg import_time) calls) in *.
  assert (Hkeys : ∀ k h, od_get (Coordinator.agent_health node) k = Some h →
                         k = NODE_ID cfg).
  { destruct Hinv as (_ & _ & _ & [Hh|[h0 Hh]]); rewrite Hh; intros k h; cbn [od_get];
      [done|]. by destruct (decide (NODE_ID cfg = k)). }
  split; [done|]. split; [intros; by apply invariant_scan|].
  intros specialization l a Hl Ha.
  pose proof (_get_available_agents_spec node specialization) as Hspec.
  revert Hspec.
  destruct (od_get (Coordinator.agents node) specialization) as [[ids|rec]|];
    intros Hspec.
  - destruct Hspec as (l' & Hl' & _ & Hmem).
    assert (Heq : l' = l) by congruence.
    destruct (proj1 (Hmem a)) as (_ & h & Hh & _); [by rewrite Heq|].
    by apply (Hkeys a h).
  - rewrite Hl in Hspec. discriminate.
  - assert (Heq : l = []) by congruence. rewrite Heq in Ha. by apply elem_of_nil in Ha.
Qed.

(** ** Heartbeats *)

Lemma od_set_absent {V : Type} (d : list (string * V)) k v :
  od_get d k = None → od_set d k v = (d ++ [(k, v)])%list.
Proof.
  induction d as [|[k' v'] d IH]; simpl; [done|].
  destruct (decide (k' = k)); [done|]. intros H. by rewrite IH.
Qed.

(** X25. A heartbeat from an agent the table does not know appends an
    [AgentInfo] for it at the end of the table: HEALTHY, with the host, port
    and specializations of the request (or their defaults), with load 0 and
    the module-load time as last heartbeat, whatever load the request
    reports and whenever it arrives. A heartbeat whose agent id is a key
    that holds a list raises [AttributeError] and changes nothing. No
    heartbeat touches the health table, the store or the acceptor. *)
Theorem handle_heartbeat_registration import_time self agent_id info now :
  (od_get (Coordinator.agents self) agent_id = None →
   Coordinator.handle_heartbeat import_time self agent_id info now
     = (Coordinator.set_agents self
          (Coordinator.agents self
             ++ [(agent_id, AgentRec (registered_agent import_time agent_id info))])%list,
        Ok tt)) ∧
  (∀ ids, od_get (Coordinator.agents self) agent_id = Some (AgentIds ids) →
   Coordinator.handle_heartbeat import_time self agent_id info now
     = (self, Raise AttributeError)) ∧
  let self' := fst (Coordinator.handle_heartbeat import_time self agent_id info now) in
  Coordinator.agent_health self' = Coordinator.agent_health self ∧
  Coordinator.conversations self' = Coordinator.conversations self ∧
  Coordinator.paxos self' = Coordinator.paxos self.
Proof.
  unfold Coordinator.handle_heartbeat.
  destruct (od_get (Coordinator.agents self) agent_id) as [[ids|a]|] eqn:Hget.
  - split; [done|]. split; [by intros ids' [= <-]|done].
  - split; [done|]. split; [done|done].
  - split; [intros _; by rewrite (od_set_absent _ _ _ Hget)|]. split; [done|done].
Qed.

(** ** The health scan *)

Lemma same_outside_store_refl s : same_outside_store s s.
Proof. by repeat split. Qed.

Lemma same_outside_store_trans s1 s2 s3 :
  same_outside_store s1 s2 → same_outside_store s2 s3 → same_outside_store s1 s3.
Proof.
  unfold same_outside_store. intros (?&?&?&?&?) (?&?&?&?&?). repeat split; congruence.
Qed.

Lemma for_each_same_outside_store {A : Type}
    (body : DistributedAgentCoordinator → A → DistributedAgentCoordinator * result unit)
    (xs : list A) (self : DistributedAgentCoordinator) :
  (∀ s x, same_outside_store s (fst (body s x))) →
  same_outside_store self (fst (Coordinator.for_each body xs self)).
Proof.
  intros Hbody. revert self. induction xs as [|x xs IH]; intros self; simpl.
  - apply same_outside_store_refl.
  - pose proof (Hbody self x) as Hx.
    destruct (body self x) as [s1 [[]|err]]; cbn [fst] in *; [|done].
    eapply same_outside_store_trans; [exact Hx|apply IH].
Qed.

Lemma _handle_agent_failure_same_outside_store cfg now self failed :
  same_outside_store self (fst (Coordinator._handle_agent_failure cfg now self failed)).
Proof.
  unfold Coordinator._handle_agent_failure. apply for_each_same_outside_store.
  intros s t. unfold Coordinator.reassign.
  destruct (od_get (Coordinator.conversations s) t) as [state|];
    [|apply same_outside_store_refl].
  match goal with
  | |- context [match ?cands with Ok _ => _ | Raise _ => _ end] =>
      destruct cands as [[|c cs]|err]
  end; try apply same_outside_store_refl.
  pose proof (_update_conversation_state_outside cfg s t
    (Coordinator._select_best_agent s (c :: cs)) (context state) now) as [Hf _].
  by destruct (Coordinator._update_conversation_state _ _ _ _ _ _) as [s1 [pushes|err]].
Qed.

Lemma set_status_failed_again h n :
  Health.status (Health.set_failure_count h n) = Some "failed" →
  Health.set_status (Health.set_failure_count h n) "failed" = Health.set_failure_count h n.
Proof. destruct h as [lh st sp ld fc]. cbn. by intros ->. Qed.

Lemma check_agent_step cfg now self agent_id h :
  agent_id ≠ Coordinator.node_id self →
  od_get (Coordinator.agent_health self) agent_id = Some h →
  let self' := fst (Coordinator.check_agent cfg now self agent_id) in
  od_get (Coordinator.agent_health self') agent_id = Some (scan_entry cfg now h) ∧
  (∀ b, b ≠ agent_id →
     od_get (Coordinator.agent_health self') b = od_get (Coordinator.agent_health self) b) ∧
  Coordinator.node_id self' = Coordinator.node_id self ∧
  Coordinator.agents self' = Coordinator.agents self ∧
  Coordinator.paxos self' = Coordinator.paxos self ∧
  (Coordinator.conversations self' ≠ Coordinator.conversations self →
     silent_at cfg h now ∧
     FAILURE_THRESHOLD cfg ≤ default 0 (Health.failure_count h) + 1 ∧
     Health.status h ≠ Some "failed").
Proof.
  intros Hne Hget. cbv zeta. unfold Coordinator.check_agent, scan_entry, silent_at.
  rewrite decide_False by done. rewrite Hget.
  destruct (PrimFloat.ltb _ _) eqn:Hsilent.
  - destruct (Z.geb_spec (default 0 (Health.failure_count h) + 1) (FAILURE_THRESHOLD cfg))
      as [Hthr|Hthr].
    + destruct (bool_decide _) eqn:Hfailed.
      * apply bool_decide_eq_true in Hfailed.
        cbn [fst Coordinator.agent_health Coordinator.set_agent_health
             Coordinator.node_id Coordinator.agents Coordinator.paxos
             Coordinator.conversations].
        rewrite od_get_set_eq, (set_status_failed_again _ _ Hfailed).
        repeat split; try done. intros b Hb. by apply od_get_set_ne.
      * apply bool_decide_eq_false in Hfailed.
        destruct (_handle_agent_failure_same_outside_store cfg now
          (Coordinator.set_agent_health self
             (od_set (Coordinator.agent_health self) agent_id
                (Health.set_status
                   (Health.set_failure_count h (default 0 (Health.failure_count h) + 1))
                   "failed"))) agent_id) as (Hn & Hag & Hh & Hp & _).
        rewrite Hh, Hn, Hag, Hp.
        cbn [Coordinator.agent_health Coordinator.set_agent_health
             Coordinator.node_id Coordinator.agents Coordinator.paxos].
        rewrite od_get_set_eq. repeat split; try done; try lia.
        intros b Hb. by apply od_get_set_ne.
    + cbn [fst Coordinator.agent_health Coordinator.set_agent_health
           Coordinator.node_id Coordinator.agents Coordinator.paxos
           Coordinator.conversations].
      rewrite od_get_set_eq. repeat split; try done. intros b Hb. by apply od_get_set_ne.
  - destruct (_ >? _);
      cbn [fst Coordinator.agent_health Coordinator.set_agent_health
           Coordinator.node_id Coordinator.agents Coordinator.paxos
           Coordinator.conversations].
    + rewrite od_get_set_eq. repeat split; try done. intros b Hb. by apply od_get_set_ne.
    + repeat split; done.
Qed.



Lemma scans_of_entry cfg times self agent_id h :
  agent_id ≠ Coordinator.node_id self →
  od_get (Coordinator.agent_health self) agent_id = Some h →
  od_get (Coordinator.agent_health (scans_of cfg times self agent_id)) agent_id
    = Some (fold_left (fun e t => scan_entry cfg t e) times h).
Proof.
  unfold scans_of. revert self h. induction times as [|t times IH]; intros self h Hne Hget.
  - done.
  - cbn [fold_left].
    destruct (check_agent_step cfg t self agent_id h Hne Hget) as (He & _ & Hn & _).
    apply IH; [by rewrite Hn|done].
Qed.

Lemma scan_entry_silent cfg t h :
  silent_at cfg h t →
  scan_entry cfg t h =
    Health.set_status
      (Health.set_failure_count h (default 0 (Health.failure_count h) + 1))
      (if default 0 (Health.failure_count h) + 1 >=? FAILURE_THRESHOLD cfg
       then "failed" else "suspected").
Proof. unfold silent_at, scan_entry. by intros ->. Qed.

Lemma scan_entry_last_heartbeat cfg t h :
  Health.last_heartbeat (scan_entry cfg t h) = Health.last_heartbeat h.
Proof.
  unfold scan_entry. destruct (PrimFloat.ltb _ _); [done|]. by destruct (_ >? _).
Qed.

Lemma fold_scan_entry_silent cfg times t h :
  Forall (silent_at cfg h) (t :: times) →
  fold_left (fun e t => scan_entry cfg t e) (t :: times) h =
    let n := default 0 (Health.failure_count h) + Z.of_nat (length (t :: times)) in
    Health.set_status (Health.set_failure_count h n)
      (if n >=? FAILURE_THRESHOLD cfg then "failed" else "suspected").
Proof.
  revert t h. induction times as [|t' times IH]; intros t h Hall.
  - apply Forall_cons in Hall as [Ht _]. cbn [fold_left length].
    by rewrite (scan_entry_silent _ _ _ Ht).
  - apply Forall_cons in Hall as [Ht Hrest].
    change (fold_left (fun e t => scan_entry cfg t e) (t :: t' :: times) h)
      with (fold_left (fun e t => scan_entry cfg t e) (t' :: times) (scan_entry cfg t h)).
    rewrite IH.
    2:{ eapply Forall_impl; [exact Hrest|]. intros x Hx. unfold silent_at in *.
        by rewrite scan_entry_last_heartbeat. }
    rewrite (scan_entry_silent _ _ _ Ht). cbv zeta. destruct h as [lh st sp ld fc].
    cbn [Health.set_status Health.set_failure_count Health.failure_count
         Health.last_heartbeat Health.specializations Health.load Health.status
         from_option id].
    assert (Hn : default 0 fc + 1 + Z.of_nat (length (t' :: times))
                 = default 0 fc + Z.of_nat (length (t :: t' :: times)))
      by (cbn [length]; lia).
    by rewrite Hn.
Qed.

(** X27. A peer that stays past its liveness window is counted once per
    scan: after n > 0 scans of its entry the failure count has grown by n,
    and the status is failed exactly when the count has reached
    FAILURE_THRESHOLD and suspected before that. *)
Theorem scans_of_silent_peer cfg t times self agent_id h :
  agent_id ≠ Coordinator.node_id self →
  od_get (Coordinator.agent_health self) agent_id = Some h →
  Forall (silent_at cfg h) (t :: times) →
  let n := default 0 (Health.failure_count h) + Z.of_nat (length (t :: times)) in
  od_get (Coordinator.agent_health (scans_of cfg (t :: times) self agent_id)) agent_id
    = Some (Health.set_status (Health.set_failure_count h n)
              (if n >=? FAILURE_THRESHOLD cfg then "failed" else "suspected")).
Proof.
  intros Hne Hget Hall. cbv zeta.
  rewrite (scans_of_entry cfg (t :: times) self agent_id h Hne Hget).
  by rewrite (fold_scan_entry_silent cfg times t h Hall).
Qed.

Lemma scans_of_silent_peer_witness :
  od_get (Coordinator.agent_health
            (scans_of demo_cfg [100%float; 110%float; 120%float]
               (watching_node (peer_entry 50%float "healthy" 0)) "agent-2")) "agent-2"
    = Some (peer_entry 50%float "failed" 3).
Proof.
  apply (scans_of_silent_peer demo_cfg 100%float [110%float; 120%float]
           (watching_node (peer_entry 50%float "healthy" 0)) "agent-2"
           (peer_entry 50%float "healthy" 0)).
  - vm_compute. discriminate.
  - reflexivity.
  - repeat constructor; vm_compute; reflexivity.
Defined.

(** ** A started node *)

Lemma _classify_email_range content sender :
  Coordinator._classify_email content sender ∈ ["support"; "sales"; "general"].
Proof.
  unfold Coordinator._classify_email.
  destruct (existsb _ _); [by left|]. destruct (existsb _ _); [right; by left|].
  right; right; by left.
Qed.

Lemma started_assign_raises cfg s thread email_content sender now :
  started s →
  Coordinator.assign_agent_for_email cfg s thread email_content sender now
    = (s, Raise AttributeError).
Proof.
  intros [Hlists (h & Hh & Hs)]. unfold Coordinator.assign_agent_for_email.
  pose proof (Hlists _ (_classify_email_range email_content sender)) as Hget.
  unfold Coordinator._get_available_agents. rewrite Hget.
  cbn [List.filter]. unfold Coordinator.is_healthy. rewrite Hh.
  rewrite (bool_decide_eq_true_2 _ Hs).
  apply od_get_In in Hget.
  by rewrite (_update_conversation_state_raises_on_list cfg s _ _ _ _ _ _ Hget).
Qed.

Lemma start_started now s : started (Coordinator.start now s).
Proof.
  unfold started, Coordinator.start, Coordinator._initialize_demo_agents.
  cbn [Coordinator.node_id Coordinator.agents Coordinator.set_agents
       Coordinator.set_running Coordinator.set_agent_health Coordinator.agent_health].
  split.
  - intros spec Hspec. repeat (apply elem_of_cons in Hspec as [->|Hspec]); try done.
    by apply elem_of_nil in Hspec.
  - eexists. split; [apply od_get_set_eq|done].
Qed.

Lemma check_agent_keeps_own_entry cfg now s agent_id :
  let s' := fst (Coordinator.check_agent cfg now s agent_id) in
  Coordinator.node_id s' = Coordinator.node_id s ∧
  Coordinator.agents s' = Coordinator.agents s ∧
  od_get (Coordinator.agent_health s') (Coordinator.node_id s)
    = od_get (Coordinator.agent_health s) (Coordinator.node_id s).
Proof.
  cbv zeta. destruct (decide (agent_id = Coordinator.node_id s)) as [Heq|Hne].
  - unfold Coordinator.check_agent. by rewrite decide_True.
  - destruct (od_get (Coordinator.agent_health s) agent_id) as [h|] eqn:Hget.
    + destruct (check_agent_step cfg now s agent_id h Hne Hget)
        as (_ & Hother & Hn & Hag & _).
      split; [done|]. split; [done|]. apply Hother. congruence.
    + unfold Coordinator.check_agent. rewrite decide_False by done. rewrite Hget.
      by destruct (PrimFloat.ltb _ _).
Qed.

Lemma _check_agent_health_keeps_own_entry cfg now s :
  let s' := fst (Coordinator._check_agent_health cfg now s) in
  Coordinator.node_id s' = Coordinator.node_id s ∧
  Coordinator.agents s' = Coordinator.agents s ∧
  od_get (Coordinator.agent_health s') (Coordinator.node_id s)
    = od_get (Coordinator.agent_health s) (Coordinator.node_id s).
Proof.
  cbv zeta. unfold Coordinator._check_agent_health.
  generalize (map fst (Coordinator.agent_health s)). intros keys. revert s.
  induction keys as [|k keys IH]; intros s; cbn [Coordinator.for_each]; [done|].
  pose proof (check_agent_keeps_own_entry cfg now s k) as (Hn & Hag & Hh).
  destruct (Coordinator.check_agent cfg now s k) as [s1 [[]|e]]; cbn [fst] in *; [|done].
  destruct (IH s1) as (Hn' & Hag' & Hh'). rewrite Hn in Hh'.
  repeat split; congruence.
Qed.

Lemma step_started cfg import_time s c :
  started s → started (step cfg import_time s c).
Proof.
  intros Hst. destruct c; cbn [step].
  - apply start_started.
  - by rewrite started_assign_raises.
  - destruct (_update_conversation_state_outside cfg s thread agent_id ctx now)
      as [(Hn & Hag & Hh & _) _].
    unfold started. by rewrite Hn, Hag, Hh.
  - destruct (_check_agent_health_keeps_own_entry cfg now s) as (Hn & Hag & Hh).
    unfold started. by rewrite Hn, Hag, Hh.
  - destruct Hst as [Hlists Hown]. unfold Coordinator.handle_heartbeat.
    destruct (od_get (Coordinator.agents s) agent_id) as [[ids0|a0]|] eqn:Hag;
      cbn [fst]; [done| |].
    all: unfold started;
      cbn [Coordinator.node_id Coordinator.agents Coordinator.set_agents
           Coordinator.agent_health];
      split; [|done]; intros spec Hspec; rewrite od_get_set_ne; [by apply Hlists|].
    all: intros ->; rewrite (Hlists _ Hspec) in Hag; discriminate.
  - unfold Coordinator.paxos_route. by destruct (Paxos.handle_paxos_message _ _).
  - unfold Coordinator._handle_message_sent.
    by destruct (od_get (Coordinator.conversations s) thread).
Qed.

(** X28. Once [start()] has run, on whatever node, every later
    [assign_agent_for_email] raises [AttributeError] and leaves the node as
    it is, for every message and after any further calls: the node stays
    listed under all three specializations and healthy, so a candidate is
    always found and the upsert always hits the lists in the agent table. *)
Theorem started_node_cannot_assign cfg import_time now0 self calls
    thread email_content sender now :
  let node := run cfg import_time (Coordinator.start now0 self) calls in
  Coordinator.assign_agent_for_email cfg node thread email_content sender now
    = (node, Raise AttributeError).
Proof.
  cbv zeta. apply started_assign_raises.
  unfold run. generalize (start_started now0 self).
  generalize (Coordinator.start now0 self). clear self.
  induction calls as [|c calls IH]; intros s Hs; [done|].
  cbn [fold_left]. apply IH. by apply step_started.
Qed.

(** ** One whole scan *)







